(** * arb-deploy: a shallow embedding of [scripts/arb_deploy.py]

  The script discovers the validator state folders of a rollup, renders a
  docker-compose manifest (one aggregator block followed by one block per
  further validator), tears down the previous deployment and optionally
  builds and starts the new one.

  Definitions come first:
  - [Py]: the fragment of Python the script relies on (values read from
    JSON, [str()], [str.replace], the [%] formatting operator,
    exceptions);
  - [Os]: the process environment (file system, external commands) as an
    explicit world threaded through a state-and-exception monad;
  - [ArbDeploy]: the script itself, one definition per source function;
  - [Node], [Phases]: a node of the loop and the phases of [deploy] as
    plain functions, which the lemmas relate to the script;
  - [Samples]: concrete configurations and file trees.

  The lemmas follow: [PyFacts], [NodeFacts], [Render], [Run] and [Paths]
  relate the script to those functions; [Flags], [Manifest], [Discovery]
  and [Lifecycle] state the properties of the specification. *)

From Stdlib Require Import ZArith Ascii String.
From stdpp Require Import base option list gmap sets strings pretty.

(** ** The Python fragment *)

Module Py.

(** Values that [json.load] can put in a dictionary.  Floats, arrays and
    nested objects are carried by the text [str()] prints for them, which
    is all the script ever asks of such a value.  A Python string is held
    as the bytes of its UTF-8 encoding; every text the script searches for
    or inserts is ASCII, so matching on bytes is matching on characters. *)
Inductive value :=
| PyNone
| PyBool (b : bool)
| PyInt (z : Z)
| PyStr (s : string)
| PyOther (shown : string).

Global Instance value_eq_dec : EqDecision value.
Proof. solve_decision. Defined.

(** [str(v)], which is also what the [%s] conversion inserts. *)
Definition str (v : value) : string :=
  match v with
  | PyNone => "None"
  | PyBool true => "True"
  | PyBool false => "False"
  | PyInt z => pretty z
  | PyStr s => s
  | PyOther shown => shown
  end.

(** Exceptions the script can meet.  [OSError] stands for a file that
    cannot be opened, [ValueError] for a JSON decoding error or a bad
    format string, [Exception] for the script's own [raise]. *)
Inductive exn :=
| OSError
| ValueError
| KeyError (key : string)
| TypeError
| AttributeError
| Exception (msg : string)
| SystemExit (code : Z).

Global Instance exn_eq_dec : EqDecision exn.
Proof. solve_decision. Defined.

Inductive result (A : Type) :=
| Ok (a : A)
| Raise (e : exn).
Global Arguments Ok {A} a.
Global Arguments Raise {A} e.

Global Instance result_ret : MRet result := @Ok.
Global Instance result_bind : MBind result := λ A B f r,
  match r with Ok a => f a | Raise e => Raise e end.
Global Instance result_fmap : FMap result := λ A B f r,
  match r with Ok a => Ok (f a) | Raise e => Raise e end.

(** Truthiness of an optional string ([None] and [""] are falsy). *)
Definition truthy (o : option string) : bool :=
  match o with
  | Some (String _ _) => true
  | _ => false
  end.

(** *** [str.replace]

    [replace_go old new skip s] walks [s] from the left.  [skip] counts
    the characters of a match that was just replaced and are still to be
    passed over; with [skip = 0] the walk is at a scanning position, where
    a match of [old] is replaced by [new] and any other character is
    copied.  This is the leftmost, non-overlapping replacement of
    [str.replace] for a non-empty [old]. *)
Fixpoint replace_go (old new : string) (skip : nat) (s : string) : string :=
  match s with
  | "" => ""
  | String c s' =>
      match skip with
      | S k => replace_go old new k s'
      | O =>
          if String.prefix old s
          then new +:+ replace_go old new (pred (String.length old)) s'
          else String c (replace_go old new 0 s')
      end
  end.

(** With an empty [old], Python inserts [new] before every character and
    at the end. *)
Fixpoint replace_empty (new s : string) : string :=
  match s with
  | "" => new
  | String c s' => new +:+ String c (replace_empty new s')
  end.

Definition replace (s old new : string) : string :=
  match old with
  | "" => replace_empty new s
  | _ => replace_go old new 0 s
  end.

(** The method call [v.replace(old, new)] on a value read from JSON: only
    strings have the method. *)
Definition method_replace (v : value) (old new : string) : result string :=
  match v with
  | PyStr s => Ok (replace s old new)
  | _ => Raise AttributeError
  end.

(** [prefix + v] where [prefix] is a string literal: only a string can be
    concatenated to a string. *)
Definition concat (prefix : string) (v : value) : result string :=
  match v with
  | PyStr s => Ok (prefix +:+ s)
  | _ => Raise TypeError
  end.

(** *** The [%] operator

    [percent template args] is [template % args] for the conversions the
    script's templates use: [%s] (any value, through [str]), [%d] (an
    integer or a boolean) and the literal [%%].  Too few or too many
    arguments raise [TypeError], anything else after a [%] raises
    [ValueError].  Python knows further conversions, flags and widths;
    none occurs in a template of the script, nor in [states_path] for a
    working directory and a rollup name without [%]. *)
Definition as_int (v : value) : result Z :=
  match v with
  | PyInt z => Ok z
  | PyBool b => Ok (if b then 1 else 0)%Z
  | _ => Raise TypeError
  end.

Fixpoint percent (template : string) (args : list value) : result string :=
  match template with
  | "" => match args with [] => Ok "" | _ :: _ => Raise TypeError end
  | String c t1 =>
      if Ascii.eqb c "%" then
        match t1 with
        | "" => Raise ValueError
        | String d t2 =>
            if Ascii.eqb d "s" then
              match args with
              | [] => Raise TypeError
              | a :: args' => (λ r, str a +:+ r) <$> percent t2 args'
              end
            else if Ascii.eqb d "d" then
              match args with
              | [] => Raise TypeError
              | a :: args' =>
                  z ← as_int a; (λ r, pretty z +:+ r) <$> percent t2 args'
              end
            else if Ascii.eqb d "%" then String "%" <$> percent t2 args
            else Raise ValueError
        end
      else String c <$> percent t1 args
  end.

(** Substring test, [needle in haystack]. *)
Fixpoint contains (needle haystack : string) : bool :=
  String.prefix needle haystack ||
  match haystack with
  | "" => false
  | String _ h' => contains needle h'
  end.

End Py.

(** ** The process environment *)

Module Os.
Import Py.

(** What [json.load] returns for a configuration file: a dictionary, or
    some other JSON value (an array, a string, a number, ...). *)
Inductive json :=
| JObject (members : gmap string value)
| JOther.

(** A file under the rollup's tree: text that [json.load] rejects, or a
    JSON document. *)
Inductive file :=
| Garbled
| Json (doc : json).

(** [data[key]]. *)
Definition subscript (data : json) (key : string) : result value :=
  match data with
  | JObject members =>
      match members !! key with
      | Some v => Ok v
      | None => Raise (KeyError key)
      end
  | JOther => Raise TypeError
  end.

(** [key in data], for a dictionary. *)
Definition has_key (key : string) (data : json) : bool :=
  match data with
  | JObject members => bool_decide (is_Some (members !! key))
  | JOther => false
  end.

(** What the script does to the outside, in order. *)
Inductive event :=
| Run (cmd : string) (sudo capture_stdout quiet : bool)
| BuildValidator (sudo : bool)
| WriteFile (path contents : string)
| Print (line : string).

Global Instance event_eq_dec : EqDecision event.
Proof. solve_decision. Defined.

(** The world a run of the script sees and changes.
    - [cwd]: the working directory, an absolute path;
    - [entries]: the paths for which [os.path.exists] holds;
    - [files]: the configuration files, by path;
    - [manifest]: the text of [docker-compose.yml] in the working
      directory, when that file exists;
    - [shell]: what an external command prints on its standard output;
    - [build_status]: what the image build returns;
    - [log]: the events so far, oldest first. *)
Record world := World {
  cwd : string;
  entries : gset string;
  files : gmap string file;
  manifest : option string;
  shell : string → string;
  build_status : Z;
  log : list event
}.

Definition emit (ev : event) (w : world) : world :=
  World (cwd w) (entries w) (files w) (manifest w) (shell w)
        (build_status w) (log w ++ [ev]).

Definition store_manifest (text : string) (w : world) : world :=
  World (cwd w) (entries w) (files w) (Some text) (shell w)
        (build_status w) (log w).

(** The world after the events [evs], which leave the files alone. *)
Definition extend (evs : list event) (w : world) : world :=
  World (cwd w) (entries w) (files w) (manifest w) (shell w)
        (build_status w) (log w ++ evs).

(** The events between an earlier world [w] and a later one [w']. *)
Definition since (w w' : world) : list event :=
  drop (length (log w)) (log w').

Definition is_run (ev : event) : Prop :=
  match ev with Run _ _ _ _ => True | _ => False end.

(** Computations: a result or an exception, and the world afterwards. *)
Definition M (A : Type) : Type := world → result A * world.

Global Instance M_ret : MRet M := λ A a w, (Ok a, w).
Global Instance M_bind : MBind M := λ A B f m w,
  match m w with
  | (Ok a, w') => f a w'
  | (Raise e, w') => (Raise e, w')
  end.

Definition lift {A} (r : result A) : M A := λ w, (r, w).
Definition raise {A} (e : exn) : M A := lift (Raise e).

(** [exit(code)] raises [SystemExit]. *)
Definition exit {A} (code : Z) : M A := raise (SystemExit code).

Definition getcwd : M string := λ w, (Ok (cwd w), w).

(** *** [os.path], as [posixpath] has it *)

(** [s.startswith("/")]. *)
Definition starts_with_sep (s : string) : bool :=
  match s with
  | String "/" _ => true
  | _ => false
  end.

(** [s.endswith("/")]. *)
Fixpoint ends_with_sep (s : string) : bool :=
  match s with
  | "" => false
  | String c "" => Ascii.eqb c "/"
  | String _ s' => ends_with_sep s'
  end.

(** [os.path.join(a, b)]: an absolute [b] replaces [a]; otherwise [b] is
    appended, after a slash unless [a] is empty or ends with one.
    [os.path.join(a, b, c)] is [path_join (path_join a b) c]. *)
Definition path_join (a b : string) : string :=
  if starts_with_sep b then b
  else if String.eqb a "" || ends_with_sep a then a +:+ b
  else a +:+ "/" +:+ b.

(** [s.split("/")]. *)
Fixpoint pieces (s : string) : list string :=
  match s with
  | "" => [""]
  | String c s' =>
      match pieces s' with
      | piece :: rest =>
          if Ascii.eqb c "/" then "" :: piece :: rest
          else String c piece :: rest
      | [] => [String c ""]
      end
  end.

(** ["/".join(comps)]. *)
Fixpoint join_sep (comps : list string) : string :=
  match comps with
  | [] => ""
  | [comp] => comp
  | comp :: rest => comp +:+ "/" +:+ join_sep rest
  end.

(** The loop of [os.path.normpath] over the components: empty ones and
    [.] are dropped, and [..] removes the component before it, is
    dropped at the root, and is kept at the start of a relative path and
    after another [..].  [new_comps] holds the components kept so far,
    the last one first. *)
Fixpoint collapse (rooted : bool) (comps new_comps : list string)
    : list string :=
  match comps with
  | [] => rev new_comps
  | comp :: rest =>
      if String.eqb comp "" || String.eqb comp "." then
        collapse rooted rest new_comps
      else if negb (String.eqb comp "..")
              || (negb rooted && bool_decide (new_comps = []))
              || bool_decide (head new_comps = Some "..") then
        collapse rooted rest (comp :: new_comps)
      else collapse rooted rest (tail new_comps)
  end.

(** The slashes [os.path.normpath] keeps at the start: two when the path
    starts with exactly two, one when it starts with one or with three
    or more. *)
Definition initial_slashes (path : string) : string :=
  match path with
  | String "/" (String "/" (String "/" _)) => "/"
  | String "/" (String "/" _) => "//"
  | String "/" _ => "/"
  | _ => ""
  end.

(** [os.path.normpath(path)]. *)
Definition normpath (path : string) : string :=
  if String.eqb path "" then "."
  else
    let text := initial_slashes path +:+
                join_sep (collapse (starts_with_sep path) (pieces path) []) in
    if String.eqb text "" then "." else text.

(** [os.path.abspath(path)] in working directory [dir]: a relative path
    is joined to the working directory, and the result normalised. *)
Definition abspath (dir path : string) : string :=
  if starts_with_sep path then normpath path
  else normpath (path_join dir path).

(** [os.path.isfile("./docker-compose.yml")]. *)
Definition manifest_isfile : M bool :=
  λ w, (Ok (bool_decide (is_Some (manifest w))), w).

(** [json.load(open(os.path.join(dir, "config.json")))]: the file cannot
    be opened when [dir] does not exist or holds no such file, and
    decoding fails on text that is not JSON. *)
Definition load_config (dir : string) : M json := λ w,
  if bool_decide (dir ∈ entries w) then
    match files w !! path_join dir "config.json" with
    | Some (Json doc) => (Ok doc, w)
    | Some Garbled => (Raise ValueError, w)
    | None => (Raise OSError, w)
    end
  else (Raise OSError, w).

(** Modelled from the spec: [support.run], the runtime shell adapter,
    which is not part of the script.  It executes an external command
    synchronously and reports its standard output; a keyword argument
    that is not passed is [false]. *)
Definition run (cmd : string) (sudo capture_stdout quiet : bool) : M string :=
  λ w, (Ok (shell w cmd), emit (Run cmd sudo capture_stdout quiet) w).

(** Modelled from the spec: [build_validator_docker.build_validator], the
    external image build, which returns a status code. *)
Definition build_validator (sudo : bool) : M Z :=
  λ w, (Ok (build_status w), emit (BuildValidator sudo) w).

(** [with open(path, "w") as f: f.write(contents)]; the script only ever
    writes the manifest. *)
Definition write_file (path contents : string) : M unit :=
  λ w, (Ok tt, store_manifest contents (emit (WriteFile path contents) w)).

Definition print (line : string) : M unit :=
  λ w, (Ok tt, emit (Print line) w).

(** [for x in xs: s = body(x, s)]. *)
Fixpoint for_each {A S : Type} (body : A → S → M S) (xs : list A) (s : S) : M S :=
  match xs with
  | [] => mret s
  | x :: xs' => s' ← body x s; for_each body xs' s'
  end.

(** The same loop for a body that only reads the world. *)
Fixpoint fold_result {A S : Type} (body : A → S → result S) (xs : list A)
    (s : S) : result S :=
  match xs with
  | [] => Ok s
  | x :: xs' => s' ← body x s; fold_result body xs' s'
  end.

(** The exit status of the process, given how [main] ended: an uncaught
    exception other than [SystemExit] prints a traceback and exits
    with 1. *)
Definition exit_status {A} (r : result A) : Z :=
  match r with
  | Ok _ => 0
  | Raise (SystemExit code) => code
  | Raise _ => 1
  end.

End Os.

(** ** The script *)

Module ArbDeploy.
Import Py Os.

Definition DOCKER_COMPOSE_FILENAME : string := "docker-compose.yml".

(** *** docker-compose template *)

Definition COMPOSE_HEADER : string :=
"# Machine generated by `arb-deploy`. Do not version control.
version: '3'
networks:
    default:
        external:
            name: arb-network
services:
    arb-tx-aggregator:
        volumes:
            - %s:/home/user/state
        image: arb-validator
        entrypoint: '/home/user/go/bin/arb-tx-aggregator'
        command: %s state %s %s
        ports:
            - '1235:1235'
            - '8547:8547'
".

Definition compose_header (state_abspath extra_flags ws_port : string)
    (rollup_address : value) : result string :=
  percent COMPOSE_HEADER
    [PyStr state_abspath; PyStr extra_flags; PyStr ws_port; rollup_address].

Definition COMPOSE_VALIDATOR : string :=
"
    arb-validator%d:
        volumes:
            - %s:/home/user/state
        image: arb-validator
        command: validate %s state %s %s
".

(** One arb-validator declaration for a docker compose file. *)
Definition compose_validator (validator_id : nat)
    (state_abspath extra_flags ws_port : string)
    (rollup_address : value) : result string :=
  percent COMPOSE_VALIDATOR
    [PyInt (Z.of_nat validator_id); PyStr state_abspath; PyStr extra_flags;
     PyStr ws_port; rollup_address].

(** *** Deploy *)

(** The template [states_path] of [deploy],
    [os.path.abspath(os.path.join("rollups", rollup, "validator%s"))],
    which the script fills with [states_path % i]. *)
Definition states_path (dir rollup : string) : string :=
  abspath dir (path_join (path_join "rollups" rollup) "validator%s").

(** The [while True] scan of [deploy]: [n] is the current value of
    [n_validators]; [exists_at n] is
    [os.path.exists(states_path % n_validators)], which raises when the
    template cannot be formatted; the loop leaves at the first [n] whose
    folder does not exist.  [fuel] bounds the number of turns;
    [Discovery.validators_found_stops] shows that the bound
    [validators_found] passes is never reached. *)
Fixpoint scan (exists_at : nat → result bool) (fuel n : nat) : result nat :=
  match fuel with
  | O => Ok n
  | S fuel' =>
      present ← exists_at n;
      if present : bool then scan exists_at fuel' (S n) else Ok n
  end.

Definition validators_found (states_path : string) (w : world) : result nat :=
  scan (λ n, folder ← percent states_path [PyInt (Z.of_nat n)];
             Ok (bool_decide (folder ∈ entries w)))
       (S (size (entries w))) 1.

Definition count_validators (states_path : string) : M nat :=
  λ w, (validators_found states_path w, w).

(** The local variables of [deploy] that the [for] loop assigns.  A name
    that is not bound yet holds a placeholder. *)
Record locals := Locals {
  contents : string;
  data : json;
  rollup_address : value;
  extra_flags : string;
  eth_url : string
}.

Definition set_contents (x : string) (l : locals) : locals :=
  Locals x (data l) (rollup_address l) (extra_flags l) (eth_url l).
Definition set_data (x : json) (l : locals) : locals :=
  Locals (contents l) x (rollup_address l) (extra_flags l) (eth_url l).
Definition set_rollup_address (x : value) (l : locals) : locals :=
  Locals (contents l) (data l) x (extra_flags l) (eth_url l).
Definition set_extra_flags (x : string) (l : locals) : locals :=
  Locals (contents l) (data l) (rollup_address l) x (eth_url l).
Definition set_eth_url (x : string) (l : locals) : locals :=
  Locals (contents l) (data l) (rollup_address l) (extra_flags l) x.

Definition PASSWORD_REQUIRED : string :=
  "arb_deploy requires validator password through [--password=pass] parameter or in config.json file".

(** The body of the [for] loop once [json.load] has returned [loaded]:
    the statements of the [with] block, then the [if i == 0] statement.
    [path k] is [states_path % k]. *)
Definition body (password : option string) (path : nat → string)
    (i : nat) (loaded : json) (l : locals) : result locals :=
  let l := set_data loaded l in
  a ← subscript (data l) "rollup_address";
  let l := set_rollup_address a l in
  let l := set_extra_flags "" l in
  u ← subscript (data l) "eth_url";
  u ← method_replace u "localhost" "arb-bridge-eth-geth";
  let l := set_eth_url (replace u "localhost" "arb-bridge-eth-geth") l in
  l ← (if negb (truthy password) && has_key "password" (data l) then
         p ← subscript (data l) "password";
         f ← concat " -password=" p;
         Ok (set_extra_flags (extra_flags l +:+ f) l)
       else if truthy password then
         Ok (set_extra_flags
               (extra_flags l +:+ " -password=" +:+ default "" password) l)
       else Raise (Exception PASSWORD_REQUIRED));
  if decide (i = 0) then
    c ← compose_header (path 0) (extra_flags l) (eth_url l) (rollup_address l);
    Ok (set_contents c l)
  else
    l ← (if has_key "blocktime" (data l) then
           b ← subscript (data l) "blocktime";
           f ← percent " -blocktime=%s" [b];
           Ok (set_extra_flags (extra_flags l +:+ f) l)
         else Ok l);
    c ← compose_validator i (path i) (extra_flags l) (eth_url l)
          (rollup_address l);
    Ok (set_contents (contents l +:+ c) l).

(** One turn of the [for] loop: [states_path % i] is formatted for the
    [open], which raises when the template cannot be formatted; the body
    then formats the same folder once more ([states_path % 0] in the
    turn of index 0, [states_path % i] in the others). *)
Definition turn (password : option string) (states_path : string)
    (i : nat) (l : locals) : M locals :=
  folder ← lift (percent states_path [PyInt (Z.of_nat i)]);
  loaded ← load_config folder;
  lift (body password (λ _, folder) i loaded l).

(** The locals before the loop: [contents = ""], the rest unbound. *)
Definition unbound : locals := Locals "" JOther PyNone "" "".

(** The filter [ps] of [halt_docker], which picks the validator
    containers out of a listing. *)
Definition ps : string := "grep -e 'arb-validator' | awk '{ print $1 }'".

Definition halt_docker (sudo_flag : bool) : M unit :=
  (* Check for DOCKER_COMPOSE_FILENAME and halt if running *)
  present ← manifest_isfile;
  (if present : bool then
     cmd ← lift (percent "docker-compose -f ./%s down -t 0"
                   [PyStr DOCKER_COMPOSE_FILENAME]);
     run cmd sudo_flag true false;; mret tt
   else mret tt);;
  (* Kill and rm all docker containers and images created by any arb-deploy *)
  listing ← run ("docker ps | " +:+ ps) sudo_flag true true;
  if bool_decide (listing ≠ "") then
    run ("docker kill $(" +:+ (if sudo_flag then "sudo " else "")
           +:+ "docker ps | " +:+ ps +:+ ")") sudo_flag true false;;
    run ("docker rm $(" +:+ (if sudo_flag then "sudo " else "")
           +:+ "docker ps -a | " +:+ ps +:+ ")") sudo_flag true false;;
    mret tt
  else mret tt.

(** Export to Docker and run validators. *)
Definition deploy (sudo_flag build_flag up_flag : bool) (rollup : string)
    (password : option string) : M unit :=
  (* Stop running Arbitrum containers *)
  halt_docker sudo_flag;;
  dir ← getcwd;
  let states_path := states_path dir rollup in
  n_validators ← count_validators states_path;
  (* Overwrite DOCKER_COMPOSE_FILENAME *)
  let compose := abspath dir ("./" +:+ DOCKER_COMPOSE_FILENAME) in
  l ← for_each (turn password states_path) (seq 0 n_validators) unbound;
  write_file compose (contents l);;
  (* Build *)
  (if negb up_flag || build_flag then
     status ← build_validator sudo_flag;
     if bool_decide (status ≠ 0%Z) then exit 1 else mret tt
   else mret tt);;
  (* Run *)
  if negb build_flag || up_flag then
    print ("Deploying " +:+ pretty n_validators +:+ " validators for rollup "
             +:+ str (rollup_address l));;
    cmd ← lift (percent "docker-compose -f %s up" [PyStr compose]);
    run cmd sudo_flag false false;; mret tt
  else mret tt.

(** *** Command line interface *)

(** What the command line supplies: the positional arguments, the value
    of [-p/--password] if given, and whether [-s/--sudo], [--build] and
    [--up] occur. *)
Record command_line := CommandLine {
  given_positional : list string;
  given_password : option string;
  given_sudo : bool;
  given_build : bool;
  given_up : bool
}.

Record namespace := Namespace {
  args_rollup : string;
  args_password : option string;
  args_sudo : bool;
  args_build : bool;
  args_up : bool
}.

(** [parser.parse_args()] for the parser [main] builds: [--build] and
    [--up] sit in one mutually exclusive group and exactly one positional
    argument is required; [argparse] exits with status 2 on a usage
    error. *)
Definition parse_args (c : command_line) : M namespace :=
  if given_build c && given_up c then exit 2
  else
    match given_positional c with
    | [rollup] =>
        mret (Namespace rollup (given_password c) (given_sudo c)
                (given_build c) (given_up c))
    | _ => exit 2
    end.

Definition main (c : command_line) : M unit :=
  run "./scripts/create-network" false false false;;
  args ← parse_args c;
  (* Deploy *)
  deploy (args_sudo args) (args_build args) (args_up args)
    (args_rollup args) (args_password args).

End ArbDeploy.

(** ** One node: the loop body as a function of the node alone *)

Module Node.
Import Py Os ArbDeploy.

(** The two constants of the endpoint rewrite. *)
Definition LOCALHOST : string := "localhost".
Definition GETH : string := "arb-bridge-eth-geth".

(** What rendering a node needs and yields. *)
Record resolved := Resolved {
  r_address : value;
  r_flags : string;
  r_url : string;
  r_block : string
}.

(** The password the node runs with, when there is one. *)
Definition password_flag (cli : option string) (loaded : json) : result string :=
  if truthy cli then Ok (" -password=" +:+ default "" cli)
  else if has_key "password" loaded then
    p ← subscript loaded "password"; concat " -password=" p
  else Raise (Exception PASSWORD_REQUIRED).

Definition blocktime_flag (i : nat) (loaded : json) : string :=
  if decide (i = 0) then ""
  else match loaded with
       | JObject members =>
           match members !! "blocktime" with
           | Some b => " -blocktime=" +:+ str b
           | None => ""
           end
       | JOther => ""
       end.

(** A node resolved from the command-line password, its own state folder,
    its own index and its own configuration, with one pass of the
    endpoint rewrite. *)
Definition node (cli : option string) (state_abspath : string) (i : nat)
    (loaded : json) : result resolved :=
  a ← subscript loaded "rollup_address";
  u ← subscript loaded "eth_url";
  u ← method_replace u LOCALHOST GETH;
  f ← password_flag cli loaded;
  let flags := f +:+ blocktime_flag i loaded in
  block ← (if decide (i = 0)
           then compose_header state_abspath flags u a
           else compose_validator i state_abspath flags u a);
  Ok (Resolved a flags u block).

(** How a resolved node lands in the locals of [deploy]. *)
Definition commit (i : nat) (loaded : json) (l : locals) (r : resolved) : locals :=
  Locals (if decide (i = 0) then r_block r else contents l +:+ r_block r)
         loaded (r_address r) (r_flags r) (r_url r).

(** The name of the service that validator [i] is declared under. *)
Definition service_name (i : nat) : string :=
  "arb-validator" +:+ pretty (Z.of_nat i).

(** The command of the aggregator and of a validator, as rendered. *)
Definition aggregator_command (flags endpoint address : string) : string :=
  flags +:+ " state " +:+ endpoint +:+ " " +:+ address.

Definition validator_command (flags endpoint address : string) : string :=
  "validate " +:+ flags +:+ " state " +:+ endpoint +:+ " " +:+ address.

(** Following the spec's words: the aggregator command as the
    specification describes it, [state <flags> <endpoint> <address>]. *)
Definition described_aggregator_command (flags endpoint address : string) : string :=
  "state " +:+ flags +:+ " " +:+ endpoint +:+ " " +:+ address.

(** [clashes new w]: no non-empty suffix of [w] is a prefix of a text
    that starts with [new]. *)
Fixpoint clashes (new w : string) : Prop :=
  match w with
  | "" => True
  | String _ w' =>
      (∀ t, String.prefix w (new +:+ t) = false) ∧ clashes new w'
  end.

End Node.

(** ** The run of [deploy], phase by phase *)

Module Phases.
Import Py Os ArbDeploy.

(** What [halt_docker] does to the outside: the [down] of the old
    deployment when a manifest is there, the listing of the validator
    containers, and the [kill] and [rm] when the listing is not empty. *)
Definition halt_events (sudo_flag : bool) (w : world) : list event :=
  (if manifest w is Some _
   then [Run "docker-compose -f ./docker-compose.yml down -t 0" sudo_flag true false]
   else []) ++
  [Run ("docker ps | " +:+ ps) sudo_flag true true] ++
  (if bool_decide (shell w ("docker ps | " +:+ ps) ≠ "")
   then [Run ("docker kill $(" +:+ (if sudo_flag then "sudo " else "")
                +:+ "docker ps | " +:+ ps +:+ ")") sudo_flag true false;
         Run ("docker rm $(" +:+ (if sudo_flag then "sudo " else "")
                +:+ "docker ps -a | " +:+ ps +:+ ")") sudo_flag true false]
   else []).

(** What [json.load] yields for the configuration in folder [dir]. *)
Definition loaded (w : world) (dir : string) : result json :=
  fst (load_config dir w).

(** The outcome of one turn of the loop in world [w]. *)
Definition resolve (cli : option string) (path : nat → string) (w : world)
    (i : nat) (l : locals) : result locals :=
  doc ← loaded w (path i); body cli path i doc l.

(** The outcome of the whole loop over the [n] discovered nodes. *)
Definition resolve_all (cli : option string) (path : nat → string)
    (w : world) (n : nat) : result locals :=
  fold_result (resolve cli path w) (seq 0 n) unbound.

(** The statements of [deploy] after the loop: write the manifest, build,
    bring up. *)
Definition launch (sudo_flag build_flag up_flag : bool) (compose : string)
    (n : nat) (l : locals) : M unit :=
  write_file compose (contents l);;
  (if negb up_flag || build_flag then
     status ← build_validator sudo_flag;
     if bool_decide (status ≠ 0%Z) then exit 1 else mret tt
   else mret tt);;
  if negb build_flag || up_flag then
    print ("Deploying " +:+ pretty n +:+ " validators for rollup "
             +:+ str (rollup_address l));;
    cmd ← lift (percent "docker-compose -f %s up" [PyStr compose]);
    run cmd sudo_flag false false;; mret tt
  else mret tt.

(** The path of the manifest. *)
Definition compose_path (w : world) : string :=
  abspath (cwd w) ("./" +:+ DOCKER_COMPOSE_FILENAME).

(** The state folder of validator [i], [states_path % i] for a template
    whose only conversion is the final [%s]. *)
Definition state_folder (dir rollup : string) (i : nat) : string :=
  abspath dir
    (path_join (path_join "rollups" rollup)
       ("validator" +:+ pretty (Z.of_nat i))).

(** What comes before the index in the path of a state folder. *)
Definition stem (dir rollup : string) : string :=
  (if decide (dir = "/") then "/" else dir +:+ "/")
    +:+ "rollups/" +:+ rollup +:+ "/validator".

(** No character of [s] is [c]. *)
Fixpoint free_of (c : ascii) (s : string) : bool :=
  match s with
  | "" => true
  | String a s' => negb (Ascii.eqb a c) && free_of c s'
  end.

(** A plain path component: not empty, not [.] or [..], without [/] and
    without [%]. *)
Definition plain_name (s : string) : bool :=
  free_of "%" s && free_of "/" s &&
  negb (String.eqb s "") && negb (String.eqb s ".") && negb (String.eqb s "..").

(** A path component that [os.path.normpath] keeps as it is. *)
Definition ordinary (s : string) : bool :=
  free_of "/" s &&
  negb (String.eqb s "") && negb (String.eqb s ".") && negb (String.eqb s "..").

(** A plain working directory, as [os.getcwd] returns it: absolute and
    normalised, and without [%]; [/] itself, or a slash before each of
    its plain components. *)
Definition plain_dir (s : string) : bool :=
  free_of "%" s &&
  match pieces s with
  | "" :: comp :: rest => String.eqb s "/" || forallb plain_name (comp :: rest)
  | _ => false
  end.

(** A configuration as the data model has it: a rollup address, a string
    endpoint and, if any, a string password. *)
Definition conforms (m : gmap string value) : Prop :=
  is_Some (m !! "rollup_address") ∧
  (∃ u, m !! "eth_url" = Some (PyStr u)) ∧
  (∀ p, m !! "password" = Some p → ∃ y, p = PyStr y).

(** The scan over a test that cannot raise. *)
Fixpoint first_gap (present : nat → bool) (fuel n : nat) : nat :=
  match fuel with
  | O => n
  | S fuel' => if present n then first_gap present fuel' (S n) else n
  end.

(** The outcome of one turn of the loop in world [w], for the template
    of the state folders. *)
Definition attempt (cli : option string) (template : string) (w : world)
    (i : nat) (l : locals) : result locals :=
  folder ← percent template [PyInt (Z.of_nat i)];
  doc ← loaded w folder;
  body cli (λ _, folder) i doc l.

(** The outcome of the whole loop over [n] nodes, for the template. *)
Definition attempt_all (cli : option string) (template : string)
    (w : world) (n : nat) : result locals :=
  fold_result (attempt cli template w) (seq 0 n) unbound.

End Phases.

(** ** Sample inputs *)

Module Samples.
Import Py Os ArbDeploy Phases.

Definition path : nat → string := state_folder "/w" "mychain".

(** A configuration with every field the script reads. *)
Definition config_full : gmap string value :=
  <["rollup_address" := PyStr "0xabc"]>
  (<["eth_url" := PyStr "ws://localhost:1234"]>
  (<["password" := PyStr "Y"]>
  (<["blocktime" := PyInt 100]> ∅))).

(** The same without a password. *)
Definition config_open : gmap string value := delete "password" config_full.

(** A configuration with neither a rollup address nor a password. *)
Definition config_bare : gmap string value :=
  <["eth_url" := PyStr "ws://localhost:1234"]> ∅.

(** A working directory with the state folders [folders] of rollup
    [mychain], each holding the configuration [config], and no manifest. *)
Definition tree (folders : list nat) (config : gmap string value)
    (status : Z) : world :=
  World "/w"
    (list_to_set (path <$> folders))
    (list_to_map ((λ i, (path_join (path i) "config.json", Json (JObject config)))
                    <$> folders))
    None (λ _, "") status [].

End Samples.

(** ** What a run of [deploy] leaves behind *)

Module Trace.
Import Py Os ArbDeploy Node Phases.

(** An external command or build that was started with the privilege
    setting [sudo_flag]; other events carry none. *)
Definition uses_sudo (sudo_flag : bool) (ev : event) : Prop :=
  match ev with
  | Run _ sudo _ _ => sudo = sudo_flag
  | BuildValidator sudo => sudo = sudo_flag
  | _ => True
  end.

(** The build is due and reports a failure. *)
Definition build_fails (build_flag up_flag : bool) (status : Z) : bool :=
  (negb up_flag || build_flag) && bool_decide (status ≠ 0%Z).

(** The command that brings the deployment up. *)
Definition up_command_line (compose : string) : string :=
  "docker-compose -f " +:+ compose +:+ " up".

(** The line [deploy] prints before it brings the deployment up. *)
Definition banner (n : nat) (address : value) : string :=
  "Deploying " +:+ pretty n +:+ " validators for rollup " +:+ str address.

(** The events of the statements after the loop, given the status the
    build reports. *)
Definition launch_events (sudo_flag build_flag up_flag : bool)
    (compose : string) (n : nat) (l : locals) (status : Z) : list event :=
  [WriteFile compose (contents l)] ++
  (if negb up_flag || build_flag then [BuildValidator sudo_flag] else []) ++
  (if build_fails build_flag up_flag status then []
   else if negb build_flag || up_flag
        then [Print (banner n (rollup_address l));
              Run (up_command_line compose) sudo_flag false false]
        else []).

Definition launch_result (build_flag up_flag : bool) (status : Z) : result unit :=
  if build_fails build_flag up_flag status then Raise (SystemExit 1) else Ok tt.

(** Blocks of text one after the other. *)
Definition paste (blocks : list string) : string :=
  foldr String.append "" blocks.

End Trace.

(** ** Further sample inputs *)

Module Cases.
Import Py Os ArbDeploy.

(** One state folder whose configuration file is not JSON, beside a
    manifest left by an earlier run. *)
Definition garbled_tree : world :=
  World "/w" {[ Samples.path 0 ]}
    {[ path_join (Samples.path 0) "config.json" := Garbled ]}
    (Some "old") (λ _, "") 0 [].

(** Two nodes whose configurations name different rollup addresses. *)
Definition mixed_tree : world :=
  World "/w" {[ Samples.path 0; Samples.path 1 ]}
    (<[path_join (Samples.path 0) "config.json" :=
         Json (JObject Samples.config_full)]>
     {[ path_join (Samples.path 1) "config.json" :=
          Json (JObject (<["rollup_address" := PyStr "0xdef"]>
                           Samples.config_full)) ]})
    None (λ _, "") 0 [].

End Cases.

(** ** Facts about the Python fragment *)

Module PyFacts.
Import Py Node.

Lemma contains_cons needle c h :
  contains needle (String c h) =
  String.prefix needle (String c h) || contains needle h.
Proof. reflexivity. Qed.

Lemma replace_go_scan old new c s :
  replace_go old new 0 (String c s) =
  if String.prefix old (String c s)
  then new +:+ replace_go old new (pred (String.length old)) s
  else String c (replace_go old new 0 s).
Proof. reflexivity. Qed.

Lemma prefix_empty s : String.prefix "" s = true.
Proof. by destruct s. Qed.

Lemma prefix_cons a w c s :
  String.prefix (String a w) (String c s) = true ↔
  a = c ∧ String.prefix w s = true.
Proof.
  simpl. destruct (ascii_dec a c) as [->|Hne]; [tauto|].
  split; [discriminate|]. by intros [? _].
Qed.

Lemma prefix_split needle h :
  String.prefix needle h = true ↔ ∃ rest, h = needle +:+ rest.
Proof.
  revert h. induction needle as [|a w IH]; intros h.
  { rewrite prefix_empty. split; [by exists h|done]. }
  destruct h as [|c h].
  { split; [done|]. by intros [rest ?]. }
  rewrite prefix_cons, IH. split.
  - intros [-> [rest ->]]. by exists rest.
  - intros [rest Heq]. injection Heq as -> ->. eauto.
Qed.

(** [contains] decides whether the needle occurs in the text. *)
Lemma contains_split needle h :
  contains needle h = true ↔ ∃ before after, h = before +:+ needle +:+ after.
Proof.
  split.
  - induction h as [|c h IH].
    + change (contains needle "") with (String.prefix needle "" || false).
      rewrite orb_false_r. intros [rest ->]%prefix_split. by exists "", rest.
    + rewrite contains_cons. intros [Hp|Hc]%orb_true_iff.
      * apply prefix_split in Hp as [rest ->]. by exists "", rest.
      * destruct (IH Hc) as (before & after & ->).
        by exists (String c before), after.
  - intros (before & after & ->).
    induction before as [|c before IH].
    + assert (Hp : String.prefix needle (needle +:+ after) = true)
        by (apply prefix_split; eauto).
      change ("" +:+ needle +:+ after) with (needle +:+ after).
      destruct (needle +:+ after); simpl in *; by rewrite Hp.
    + change (String c before +:+ needle +:+ after)
        with (String c (before +:+ needle +:+ after)).
      rewrite contains_cons, IH. apply orb_true_r.
Qed.

Section Replace.
Variables old new : string.
Hypothesis old_nonempty : old ≠ "".
Hypothesis old_clashes : clashes new old.
Hypothesis new_clean :
  ∀ t, contains old t = false → contains old (new +:+ t) = false.

(** A text without a match is left as it is. *)
Lemma replace_go_none t :
  contains old t = false → replace_go old new 0 t = t.
Proof.
  induction t as [|c t IH]; [done|].
  rewrite contains_cons, replace_go_scan.
  intros [Hp Hc]%orb_false_elim. rewrite Hp. f_equal. auto.
Qed.

(** A match at the head of the output was already one in the input. *)
Lemma prefix_replace_go w :
  clashes new w → ∀ s,
  String.prefix w (replace_go old new 0 s) = true →
  String.prefix w s = true.
Proof.
  induction w as [|a w IH]; intros Hw s.
  { intros _. apply prefix_empty. }
  destruct Hw as [Hhead Hw]. destruct s as [|c s]; [done|].
  rewrite replace_go_scan.
  destruct (String.prefix old (String c s)) eqn:Hmatch.
  { by rewrite Hhead. }
  rewrite !prefix_cons. intros [-> Hrest]. split; [done|]. by apply IH.
Qed.

(** The output has no match left. *)
Lemma replace_go_clean s : ∀ skip,
  contains old (replace_go old new skip s) = false.
Proof.
  induction s as [|c s IH]; intros skip.
  { destruct old; [done|]. by destruct skip. }
  destruct skip as [|k]; [|apply IH].
  rewrite replace_go_scan.
  destruct (String.prefix old (String c s)) eqn:Hmatch.
  { apply new_clean, IH. }
  rewrite contains_cons, IH, orb_false_r.
  destruct (String.prefix old (String c (replace_go old new 0 s))) eqn:Hp;
    [|done].
  rewrite <- Hmatch. symmetry.
  apply (prefix_replace_go old old_clashes (String c s)).
  by rewrite replace_go_scan, Hmatch.
Qed.

Lemma replace_go_twice s :
  replace_go old new 0 (replace_go old new 0 s) = replace_go old new 0 s.
Proof. apply replace_go_none, replace_go_clean. Qed.
End Replace.

Lemma geth_clashes : clashes GETH LOCALHOST.
Proof. repeat split; intros t; reflexivity. Qed.

Lemma geth_clean t :
  contains LOCALHOST t = false → contains LOCALHOST (GETH +:+ t) = false.
Proof. intros <-. reflexivity. Qed.

Lemma rewrite_twice s :
  replace (replace s LOCALHOST GETH) LOCALHOST GETH = replace s LOCALHOST GETH.
Proof.
  change (replace_go LOCALHOST GETH 0 (replace_go LOCALHOST GETH 0 s) =
          replace_go LOCALHOST GETH 0 s).
  apply replace_go_twice; [done|apply geth_clashes|apply geth_clean].
Qed.

End PyFacts.

(** ** Facts about one turn of the loop *)

Module NodeFacts.
Import Py Os ArbDeploy Node PyFacts.

Lemma app_empty_r s : s +:+ "" = s.
Proof.
  induction s as [|c s IH]; [done|].
  change (String c (s +:+ "") = String c s). by f_equal.
Qed.

Lemma blocktime_percent b :
  percent " -blocktime=%s" [b] = Ok (" -blocktime=" +:+ str b).
Proof. cbv [percent Ascii.eqb Bool.eqb fmap result_fmap]. by rewrite app_empty_r. Qed.

Lemma app_empty_l s : "" +:+ s = s.
Proof. reflexivity. Qed.

Lemma app_assoc_string (s t v : string) : (s +:+ t) +:+ v = s +:+ t +:+ v.
Proof.
  induction s as [|c s IH]; [done|].
  change (String c ((s +:+ t) +:+ v) = String c (s +:+ t +:+ v)).
  by f_equal.
Qed.

Local Opaque compose_header compose_validator percent replace.

Lemma body_node cli path i loaded l :
  body cli path i loaded l = commit i loaded l <$> node cli (path i) i loaded.
Proof.
  unfold body, node, password_flag, blocktime_flag, commit.
  destruct loaded as [m|]; [|done]. simpl.
  destruct (m !! "rollup_address") as [a|]; [|done]. simpl.
  destruct (m !! "eth_url") as [[| | |u|]|]; try done. simpl.
  fold LOCALHOST GETH. rewrite rewrite_twice.
  destruct (truthy cli), (m !! "password") as [[| | |p|]|] eqn:Hp,
    (decide (i = 0)) as [->|Hi], (m !! "blocktime") as [t|] eqn:Ht;
    simpl; rewrite ?Hp, ?Ht; simpl; rewrite ?blocktime_percent; simpl;
    rewrite ?app_empty_l, ?app_empty_r; try done;
    try (by destruct (compose_header _ _ _ _));
    by destruct (compose_validator _ _ _ _ _).
Qed.

End NodeFacts.

(** ** The rendered text *)

Module Render.
Import Py Os ArbDeploy Node PyFacts NodeFacts.

(** The aggregator block, with the four arguments in place. *)
Lemma compose_header_text state_abspath extra_flags ws_port rollup_address :
  compose_header state_abspath extra_flags ws_port rollup_address =
  Ok ("# Machine generated by `arb-deploy`. Do not version control.
version: '3'
networks:
    default:
        external:
            name: arb-network
services:
    arb-tx-aggregator:
        volumes:
            - " +:+ state_abspath +:+ ":/home/user/state
        image: arb-validator
        entrypoint: '/home/user/go/bin/arb-tx-aggregator'
        command: " +:+ extra_flags +:+ " state " +:+ ws_port +:+ " "
        +:+ str rollup_address +:+ "
        ports:
            - '1235:1235'
            - '8547:8547'
").
Proof. vm_compute. reflexivity. Qed.

(** A validator block, with the five arguments in place. *)
Lemma compose_validator_text validator_id state_abspath extra_flags ws_port
    rollup_address :
  compose_validator validator_id state_abspath extra_flags ws_port
    rollup_address =
  Ok ("
    arb-validator" +:+ pretty (Z.of_nat validator_id) +:+ ":
        volumes:
            - " +:+ state_abspath +:+ ":/home/user/state
        image: arb-validator
        command: validate " +:+ extra_flags +:+ " state " +:+ ws_port +:+ " "
        +:+ str rollup_address +:+ "
").
Proof.
  unfold compose_validator.
  cbv [percent COMPOSE_VALIDATOR Ascii.eqb Bool.eqb fmap result_fmap mbind
       result_bind as_int str].
  reflexivity.
Qed.

End Render.

(** ** Flags of one node *)

Module Flags.
Import Py Os ArbDeploy Node PyFacts NodeFacts Render.

Lemma fmap_fmap {A B C} (f : A → B) (g : B → C) (r : result A) :
  g <$> (f <$> r) = (g ∘ f) <$> r.
Proof. by destruct r. Qed.

Lemma render_ok i sp flags url a :
  ∃ block,
    (if decide (i = 0) then compose_header sp flags url a
     else compose_validator i sp flags url a) = Ok block.
Proof.
  destruct (decide (i = 0)); eexists;
    [apply compose_header_text | apply compose_validator_text].
Qed.

(** A configuration with a rollup address, a string endpoint and a
    password from either source resolves. *)
Lemma node_ok cli sp i loaded a u f :
  subscript loaded "rollup_address" = Ok a →
  subscript loaded "eth_url" = Ok (PyStr u) →
  password_flag cli loaded = Ok f →
  ∃ block,
    (if decide (i = 0)
     then compose_header sp (f +:+ blocktime_flag i loaded)
            (replace u LOCALHOST GETH) a
     else compose_validator i sp (f +:+ blocktime_flag i loaded)
            (replace u LOCALHOST GETH) a) = Ok block ∧
    node cli sp i loaded =
    Ok (Resolved a (f +:+ blocktime_flag i loaded) (replace u LOCALHOST GETH) block).
Proof.
  intros Ha Hu Hf.
  destruct (render_ok i sp (f +:+ blocktime_flag i loaded)
              (replace u LOCALHOST GETH) a) as [block Hblock].
  exists block. split; [done|].
  unfold node. rewrite Ha. cbn [mbind result_bind]. rewrite Hu.
  cbn [mbind result_bind method_replace]. rewrite Hf.
  cbn [mbind result_bind]. by rewrite Hblock.
Qed.

Lemma body_ok cli path i loaded l a u f :
  subscript loaded "rollup_address" = Ok a →
  subscript loaded "eth_url" = Ok (PyStr u) →
  password_flag cli loaded = Ok f →
  ∃ block,
    (if decide (i = 0)
     then compose_header (path i) (f +:+ blocktime_flag i loaded)
            (replace u LOCALHOST GETH) a
     else compose_validator i (path i) (f +:+ blocktime_flag i loaded)
            (replace u LOCALHOST GETH) a) = Ok block ∧
    body cli path i loaded l =
    Ok (commit i loaded l
          (Resolved a (f +:+ blocktime_flag i loaded)
             (replace u LOCALHOST GETH) block)).
Proof.
  intros Ha Hu Hf.
  destruct (node_ok cli (path i) i loaded a u f Ha Hu Hf) as (block & Hb & Hn).
  exists block. split; [done|]. by rewrite body_node, Hn.
Qed.

Lemma truthy_nonempty x : x ≠ "" → truthy (Some x) = true.
Proof. by destruct x. Qed.

Lemma subscript_alter_ne key other (o : option value) m :
  key ≠ other →
  subscript (JObject (partial_alter (λ _, o) other m)) key =
  subscript (JObject m) key.
Proof. intros Hne. simpl. by rewrite lookup_partial_alter_ne. Qed.

Lemma blocktime_flag_alter_ne other (o : option value) i m :
  other ≠ "blocktime" →
  blocktime_flag i (JObject (partial_alter (λ _, o) other m)) =
  blocktime_flag i (JObject m).
Proof.
  intros Hne. unfold blocktime_flag. by rewrite lookup_partial_alter_ne.
Qed.

Lemma password_flag_alter_ne other (o : option value) cli m :
  other ≠ "password" →
  password_flag cli (JObject (partial_alter (λ _, o) other m)) =
  password_flag cli (JObject m).
Proof.
  intros Hne. unfold password_flag, has_key, subscript.
  by rewrite lookup_partial_alter_ne.
Qed.

(** C1.  Password precedence, for a node whose configuration has a rollup
    address and a string endpoint.  With a non-empty command-line password
    [x] the turn succeeds and the flags are [-password=x] followed by the
    node's blocktime flag, whatever the configuration's own [password]
    field is set to (absent, or any value): the configuration's password
    has no part in them.  With no command-line password ([None] or the
    empty string) and a [password] string [y] in the configuration, the
    turn succeeds and the flags are [-password=y] followed by the blocktime
    flag. *)
Theorem password_precedence (path : nat → string) (i : nat)
    (m : gmap string value) (l : locals) (a : value) (u : string) :
  m !! "rollup_address" = Some a →
  m !! "eth_url" = Some (PyStr u) →
  (∀ (x : string) (o : option value), x ≠ "" →
     ∃ l', body (Some x) path i
             (JObject (partial_alter (λ _, o) "password" m)) l = Ok l' ∧
           extra_flags l' =
           (" -password=" +:+ x) +:+ blocktime_flag i (JObject m)) ∧
  (∀ (cli : option string) (y : string),
     truthy cli = false → m !! "password" = Some (PyStr y) →
     ∃ l', body cli path i (JObject m) l = Ok l' ∧
           extra_flags l' =
           (" -password=" +:+ y) +:+ blocktime_flag i (JObject m)).
Proof.
  intros Ha Hu. split.
  - intros x o Hx.
    destruct (body_ok (Some x) path i
                (JObject (partial_alter (λ _, o) "password" m)) l a u
                (" -password=" +:+ x)) as (block & _ & Hbody).
    + by rewrite subscript_alter_ne by done; simpl; rewrite Ha.
    + by rewrite subscript_alter_ne by done; simpl; rewrite Hu.
    + unfold password_flag. by rewrite truthy_nonempty.
    + eexists. split; [exact Hbody|]. simpl.
      by rewrite blocktime_flag_alter_ne.
  - intros cli y Hcli Hy.
    destruct (body_ok cli path i (JObject m) l a u (" -password=" +:+ y))
      as (block & _ & Hbody).
    + by simpl; rewrite Ha.
    + by simpl; rewrite Hu.
    + unfold password_flag, has_key. rewrite Hcli. simpl. rewrite Hy.
      by rewrite bool_decide_eq_true_2 by eauto.
    + eexists. split; [exact Hbody|]. done.
Qed.

Lemma password_precedence_witness :
  Samples.config_full !! "rollup_address" = Some (PyStr "0xabc") ∧
  Samples.config_full !! "eth_url" = Some (PyStr "ws://localhost:1234") ∧
  (∃ l', body (Some "X") Samples.path 1
           (JObject (partial_alter (λ _, Some (PyStr "Y")) "password"
                       Samples.config_full)) unbound = Ok l' ∧
         extra_flags l' = " -password=X -blocktime=100") ∧
  (∃ l', body None Samples.path 1 (JObject Samples.config_full) unbound = Ok l' ∧
         extra_flags l' = " -password=Y -blocktime=100").
Proof.
  assert (Ha : Samples.config_full !! "rollup_address" = Some (PyStr "0xabc"))
    by (vm_compute; reflexivity).
  assert (Hu : Samples.config_full !! "eth_url" = Some (PyStr "ws://localhost:1234"))
    by (vm_compute; reflexivity).
  destruct (password_precedence Samples.path 1 Samples.config_full unbound
              _ _ Ha Hu) as [Hcli Hcfg].
  split; [exact Ha|]. split; [exact Hu|]. split.
  - destruct (Hcli "X" (Some (PyStr "Y"))) as (l' & Hbody & Hflags); [done|].
    exists l'. split; [exact Hbody|]. rewrite Hflags. vm_compute. reflexivity.
  - destruct (Hcfg None "Y") as (l' & Hbody & Hflags);
      [done|vm_compute; reflexivity|].
    exists l'. split; [exact Hbody|]. rewrite Hflags. vm_compute. reflexivity.
Defined.

(** C5.  Blocktime scoping, for a node whose configuration has a rollup
    address, a string endpoint, a [blocktime] field [b] and whose password
    flag is [f].  At index 0 the turn succeeds and the flags are [f] alone,
    whatever the [blocktime] field is set to (absent, or any value), and
    these are the flags in the aggregator block.  At every index [i >= 1]
    the turn succeeds and the flags are [f] followed by [-blocktime=b],
    and these are the flags in the validator block appended to the
    manifest. *)
Theorem blocktime_scoping (path : nat → string) (m : gmap string value)
    (l : locals) (cli : option string) (a b : value) (u f : string) :
  m !! "rollup_address" = Some a →
  m !! "eth_url" = Some (PyStr u) →
  password_flag cli (JObject m) = Ok f →
  m !! "blocktime" = Some b →
  (∀ o : option value,
     ∃ l', body cli path 0
             (JObject (partial_alter (λ _, o) "blocktime" m)) l = Ok l' ∧
           extra_flags l' = f ∧
           compose_header (path 0) f (replace u LOCALHOST GETH) a =
           Ok (contents l')) ∧
  (∀ i : nat, i ≠ 0 →
     ∃ l' block,
       body cli path i (JObject m) l = Ok l' ∧
       extra_flags l' = f +:+ " -blocktime=" +:+ str b ∧
       compose_validator i (path i) (f +:+ " -blocktime=" +:+ str b)
         (replace u LOCALHOST GETH) a = Ok block ∧
       contents l' = contents l +:+ block).
Proof.
  intros Ha Hu Hf Hb. split.
  - intros o.
    destruct (body_ok cli path 0
                (JObject (partial_alter (λ _, o) "blocktime" m)) l a u f)
      as (block & Hblock & Hbody).
    + by rewrite subscript_alter_ne by done; simpl; rewrite Ha.
    + by rewrite subscript_alter_ne by done; simpl; rewrite Hu.
    + by rewrite password_flag_alter_ne.
    + eexists. split; [exact Hbody|].
      change (blocktime_flag 0 (JObject (partial_alter (λ _, o) "blocktime" m)))
        with "" in *.
      rewrite app_empty_r in *. simpl in *. done.
  - intros i Hi.
    destruct (body_ok cli path i (JObject m) l a u f) as (block & Hblock & Hbody).
    + by simpl; rewrite Ha.
    + by simpl; rewrite Hu.
    + done.
    + assert (Hflag : blocktime_flag i (JObject m) = " -blocktime=" +:+ str b).
      { unfold blocktime_flag. rewrite Hb. by destruct (decide (i = 0)). }
      rewrite Hflag in *. destruct (decide (i = 0)) as [|_]; [done|].
      exists (commit i (JObject m) l
                (Resolved a (f +:+ " -blocktime=" +:+ str b)
                   (replace u LOCALHOST GETH) block)), block.
      split; [exact Hbody|]. split; [done|]. split; [exact Hblock|].
      unfold commit. simpl. by destruct (decide (i = 0)).
Qed.

Lemma blocktime_scoping_witness :
  Samples.config_full !! "rollup_address" = Some (PyStr "0xabc") ∧
  Samples.config_full !! "eth_url" = Some (PyStr "ws://localhost:1234") ∧
  password_flag None (JObject Samples.config_full) = Ok " -password=Y" ∧
  Samples.config_full !! "blocktime" = Some (PyInt 100) ∧
  (∃ l', body None Samples.path 0 (JObject Samples.config_full) unbound = Ok l' ∧
         extra_flags l' = " -password=Y") ∧
  (∃ l', body None Samples.path 2 (JObject Samples.config_full) unbound = Ok l' ∧
         extra_flags l' = " -password=Y -blocktime=100").
Proof.
  assert (Ha : Samples.config_full !! "rollup_address" = Some (PyStr "0xabc"))
    by (vm_compute; reflexivity).
  assert (Hu : Samples.config_full !! "eth_url" = Some (PyStr "ws://localhost:1234"))
    by (vm_compute; reflexivity).
  assert (Hf : password_flag None (JObject Samples.config_full) = Ok " -password=Y")
    by (vm_compute; reflexivity).
  assert (Hb : Samples.config_full !! "blocktime" = Some (PyInt 100))
    by (vm_compute; reflexivity).
  destruct (blocktime_scoping Samples.path Samples.config_full unbound None
              _ _ _ _ Ha Hu Hf Hb) as [Hzero Hrest].
  repeat (split; [assumption|]). split.
  - destruct (Hzero (Some (PyInt 100))) as (l' & Hbody & Hflags & _).
    exists l'. split; [|exact Hflags].
    rewrite <- Hbody. vm_compute. reflexivity.
  - destruct (Hrest 2) as (l' & block & Hbody & Hflags & _); [done|].
    exists l'. split; [exact Hbody|]. rewrite Hflags. vm_compute. reflexivity.
Defined.

(** C10.  Per-node flag isolation.  Whatever the locals hold when a turn
    starts (the flags, endpoint, address and configuration left by the
    previous node), the flags after the turn are those of [node], which is
    given the command-line password, the node's own state folder, its own
    index and its own configuration and nothing else; so are the error the
    turn raises, if any, and the block it renders, which replaces the
    manifest text at index 0 and is appended to it elsewhere. *)
Theorem flag_isolation (cli : option string) (path : nat → string) (i : nat)
    (loaded : json) (l1 l2 : locals) :
  extra_flags <$> body cli path i loaded l1 =
    r_flags <$> node cli (path i) i loaded ∧
  extra_flags <$> body cli path i loaded l1 =
    extra_flags <$> body cli path i loaded l2 ∧
  contents <$> body cli path i loaded l1 =
    (λ r, if decide (i = 0) then r_block r else contents l1 +:+ r_block r)
      <$> node cli (path i) i loaded.
Proof.
  rewrite !body_node, !fmap_fmap. done.
Qed.

(** C9.  Idempotence of the endpoint rewrite: substituting the cluster DNS
    name for [localhost] a second time changes nothing, and the endpoint a
    turn of the loop computes with its two substitutions is the endpoint of
    [node], which substitutes once. *)
Theorem endpoint_rewrite_idempotent :
  (∀ s : string,
     replace (replace s "localhost" "arb-bridge-eth-geth")
       "localhost" "arb-bridge-eth-geth" =
     replace s "localhost" "arb-bridge-eth-geth") ∧
  (∀ cli path i loaded l,
     eth_url <$> body cli path i loaded l =
     r_url <$> node cli (path i) i loaded).
Proof.
  split; [exact rewrite_twice|].
  intros. by rewrite body_node, fmap_fmap.
Qed.

End Flags.

(** ** The blocks of the manifest *)

Module Manifest.
Import Py Os ArbDeploy Node PyFacts NodeFacts Render.

Lemma node_block cli sp i loaded r :
  node cli sp i loaded = Ok r →
  (if decide (i = 0)
   then compose_header sp (r_flags r) (r_url r) (r_address r)
   else compose_validator i sp (r_flags r) (r_url r) (r_address r)) =
  Ok (r_block r).
Proof.
  unfold node.
  destruct (subscript loaded "rollup_address") as [a|]; [|done].
  cbn [mbind result_bind].
  destruct (subscript loaded "eth_url") as [v|]; [|done].
  cbn [mbind result_bind].
  destruct (method_replace v LOCALHOST GETH) as [u|]; [|done].
  cbn [mbind result_bind].
  destruct (password_flag cli loaded) as [f|]; [|done].
  cbn [mbind result_bind].
  destruct (if decide (i = 0) then _ else _) as [block|] eqn:Hblock; [|done].
  cbn [mbind result_bind]. by intros [= <-].
Qed.

Global Instance service_name_inj : Inj (=) (=) service_name.
Proof.
  intros i j Heq. unfold service_name in Heq.
  by apply (inj (String.app _)), (inj pretty), (inj Z.of_nat) in Heq.
Qed.

(** C6, as amended.  A turn that succeeds at index 0 makes the manifest
    the aggregator block, which mounts the state folder of index 0 and
    whose command is [<flags> state <endpoint> <rollup_address>]: the flags
    come before [state].  A turn that succeeds at an index [i >= 1]
    appends a validator block, declared under [arb-validator<i>], which
    mounts the state folder of index [i] and whose command is
    [validate <flags> state <endpoint> <rollup_address>].  Service names
    of different indices differ, and none is the aggregator's. *)
Theorem rendered_command_shapes (cli : option string) (path : nat → string)
    (i : nat) (loaded : json) (l l' : locals) :
  body cli path i loaded l = Ok l' →
  (if decide (i = 0) then
     contents l' =
"# Machine generated by `arb-deploy`. Do not version control.
version: '3'
networks:
    default:
        external:
            name: arb-network
services:
    arb-tx-aggregator:
        volumes:
            - " +:+ path 0 +:+ ":/home/user/state
        image: arb-validator
        entrypoint: '/home/user/go/bin/arb-tx-aggregator'
        command: "
       +:+ aggregator_command (extra_flags l') (eth_url l')
             (str (rollup_address l')) +:+ "
        ports:
            - '1235:1235'
            - '8547:8547'
"
   else
     contents l' = contents l +:+ "
    " +:+ service_name i +:+ ":
        volumes:
            - " +:+ path i +:+ ":/home/user/state
        image: arb-validator
        command: "
       +:+ validator_command (extra_flags l') (eth_url l')
             (str (rollup_address l')) +:+ "
") ∧
  (∀ j k : nat, j ≠ k → service_name j ≠ service_name k) ∧
  (∀ j : nat, service_name j ≠ "arb-tx-aggregator").
Proof.
  intros Hbody. split; [|split].
  - rewrite body_node in Hbody.
    destruct (node cli (path i) i loaded) as [r|] eqn:Hnode; [|done].
    injection Hbody as <-. apply node_block in Hnode.
    unfold commit. simpl. destruct (decide (i = 0)) as [->|Hi].
    + rewrite compose_header_text in Hnode. injection Hnode as <-.
      unfold aggregator_command. by rewrite !app_assoc_string.
    + rewrite compose_validator_text in Hnode. injection Hnode as <-.
      unfold validator_command, service_name. by rewrite !app_assoc_string.
  - intros j k Hne Heq. by apply Hne, (inj service_name).
  - intros j. unfold service_name. discriminate.
Qed.

Lemma rendered_command_shapes_witness :
  ∃ l', body None Samples.path 0 (JObject Samples.config_full) unbound = Ok l' ∧
        Py.contains
          "command:  -password=Y state ws://arb-bridge-eth-geth:1234 0xabc"
          (contents l') = true ∧
        service_name 1 ≠ service_name 2.
Proof.
  destruct (body None Samples.path 0 (JObject Samples.config_full) unbound)
    as [l'|e] eqn:Hbody; [|by vm_compute in Hbody].
  destruct (rendered_command_shapes None Samples.path 0
              (JObject Samples.config_full) unbound l' Hbody)
    as (Htext & Hnames & _).
  exists l'. split; [done|]. split; [|by apply Hnames].
  rewrite decide_True in Htext by done. rewrite Htext.
  vm_compute in Hbody. injection Hbody as <-. vm_compute. reflexivity.
Defined.

(** C6 as stated fails at the aggregator: for a configuration with
    password [Y] the rendered block holds no command that starts with
    [state], and in particular not the command the claim describes. *)
Lemma aggregator_command_counterexample :
  ∃ l', body None Samples.path 0 (JObject Samples.config_full) unbound = Ok l' ∧
        Py.contains "command: state" (contents l') = false ∧
        Py.contains
          (described_aggregator_command (extra_flags l') (eth_url l')
             (str (rollup_address l')))
          (contents l') = false.
Proof.
  eexists. split; [vm_compute; reflexivity|].
  split; vm_compute; reflexivity.
Qed.

End Manifest.

(** ** The run of [deploy] *)

Module Run.
Import Py Os ArbDeploy Node Phases PyFacts NodeFacts.

Lemma extend_extend evs1 evs2 w :
  extend evs2 (extend evs1 w) = extend (evs1 ++ evs2) w.
Proof. unfold extend. simpl. by rewrite app_assoc. Qed.

Lemma emit_extend ev w : emit ev w = extend [ev] w.
Proof. reflexivity. Qed.

Lemma since_extend evs w : since w (extend evs w) = evs.
Proof. unfold since. simpl. by rewrite drop_app_length. Qed.

Lemma down_command :
  percent "docker-compose -f ./%s down -t 0" [PyStr DOCKER_COMPOSE_FILENAME] =
  Ok "docker-compose -f ./docker-compose.yml down -t 0".
Proof. vm_compute. reflexivity. Qed.

Lemma up_command compose :
  percent "docker-compose -f %s up" [PyStr compose] =
  Ok ("docker-compose -f " +:+ compose +:+ " up").
Proof. vm_compute. reflexivity. Qed.

(** In a turn the body only asks for the folder of its own index. *)
Lemma body_at cli path i doc l :
  body cli (λ _, path i) i doc l = body cli path i doc l.
Proof. by rewrite !body_node. Qed.

Local Opaque percent.

(** [halt_docker] always returns, and only runs commands. *)
Lemma halt_docker_run sudo_flag w :
  halt_docker sudo_flag w = (Ok tt, extend (halt_events sudo_flag w) w).
Proof.
  unfold halt_docker, halt_events, mbind, M_bind, manifest_isfile.
  rewrite down_command.
  destruct (manifest w) as [text|] eqn:Hm; simpl;
    destruct (bool_decide (shell w ("docker ps | " +:+ ps) ≠ "")); simpl;
    by rewrite !emit_extend, ?extend_extend.
Qed.

Lemma halt_events_run sudo_flag w : Forall is_run (halt_events sudo_flag w).
Proof.
  unfold halt_events.
  destruct (manifest w), (bool_decide _); repeat constructor.
Qed.

Lemma load_config_run dir w : load_config dir w = (loaded w dir, w).
Proof.
  unfold loaded, load_config.
  destruct (bool_decide (dir ∈ entries w)); [|done].
  by destruct (files w !! path_join dir "config.json") as [[|doc]|].
Qed.

(** A turn of the loop only reads the world. *)
Lemma turn_run cli template i l w :
  turn cli template i l w = (attempt cli template w i l, w).
Proof.
  unfold turn, attempt, mbind at 1, M_bind, lift.
  destruct (percent template [PyInt (Z.of_nat i)]) as [folder|e];
    cbn [mbind result_bind]; [|done].
  unfold mbind at 1. rewrite load_config_run.
  by destruct (loaded w folder).
Qed.

(** Where the template formats to the folders [path], a turn is the
    turn over [path]. *)
Lemma attempt_resolve cli template path w i l :
  percent template [PyInt (Z.of_nat i)] = Ok (path i) →
  attempt cli template w i l = resolve cli path w i l.
Proof.
  intros Hformat. unfold attempt, resolve. rewrite Hformat.
  cbn [mbind result_bind].
  destruct (loaded w (path i)) as [doc|e]; [|done].
  cbn [mbind result_bind]. apply body_at.
Qed.

Lemma for_each_pure {A S} (body : A → S → M S) (f : A → S → result S) w :
  (∀ x s, body x s w = (f x s, w)) →
  ∀ xs s, for_each body xs s w = (fold_result f xs s, w).
Proof.
  intros Hbody xs. induction xs as [|x xs IH]; intros s; [done|].
  simpl. unfold mbind at 1, M_bind. rewrite Hbody.
  destruct (f x s) as [s'|e]; [apply IH|done].
Qed.

Lemma fold_result_ext {A S} (f g : A → S → result S) :
  (∀ x s, f x s = g x s) →
  ∀ xs s, fold_result f xs s = fold_result g xs s.
Proof.
  intros Hfg xs. induction xs as [|x xs IH]; intros s; [done|].
  simpl. rewrite Hfg. destruct (g x s); [apply IH|done].
Qed.

Lemma loaded_extend evs w dir : loaded (extend evs w) dir = loaded w dir.
Proof.
  unfold loaded, load_config. simpl.
  destruct (bool_decide (dir ∈ entries w)); [|done].
  by destruct (files w !! path_join dir "config.json") as [[|doc]|].
Qed.

Lemma resolve_extend cli path evs w i l :
  resolve cli path (extend evs w) i l = resolve cli path w i l.
Proof. unfold resolve. by rewrite loaded_extend. Qed.

Lemma attempt_extend cli template evs w i l :
  attempt cli template (extend evs w) i l = attempt cli template w i l.
Proof.
  unfold attempt.
  destruct (percent template [PyInt (Z.of_nat i)]) as [folder|e]; [|done].
  cbn [mbind result_bind]. by rewrite loaded_extend.
Qed.


(** Where the template formats to the folders [path], the loop is the
    loop over [path]. *)
Lemma attempt_all_resolve cli template path w n :
  (∀ i, percent template [PyInt (Z.of_nat i)] = Ok (path i)) →
  attempt_all cli template w n = resolve_all cli path w n.
Proof.
  intros Hformat. unfold attempt_all, resolve_all. apply fold_result_ext.
  intros i l. by apply attempt_resolve.
Qed.

(** [deploy], phase by phase: the teardown, then the scan and the loop,
    which leave the world as the teardown left it, then the launch if
    both succeeded. *)
Lemma deploy_run sudo_flag build_flag up_flag rollup cli w :
  deploy sudo_flag build_flag up_flag rollup cli w =
  match validators_found (states_path (cwd w) rollup) w with
  | Raise e => (Raise e, extend (halt_events sudo_flag w) w)
  | Ok n =>
      match attempt_all cli (states_path (cwd w) rollup) w n with
      | Raise e => (Raise e, extend (halt_events sudo_flag w) w)
      | Ok l =>
          launch sudo_flag build_flag up_flag (compose_path w) n l
            (extend (halt_events sudo_flag w) w)
      end
  end.
Proof.
  unfold deploy, attempt_all, mbind at 1, M_bind at 1.
  rewrite halt_docker_run.
  unfold mbind at 1, M_bind at 1, getcwd.
  unfold mbind at 1, M_bind at 1, count_validators.
  change (validators_found (states_path (cwd (extend (halt_events sudo_flag w) w)) rollup)
            (extend (halt_events sudo_flag w) w))
    with (validators_found (states_path (cwd w) rollup) w).
  change (cwd (extend (halt_events sudo_flag w) w)) with (cwd w).
  destruct (validators_found (states_path (cwd w) rollup) w) as [n|e]; [|done].
  unfold mbind at 1, M_bind at 1.
  rewrite (for_each_pure _ _ _ (λ i l, turn_run cli _ i l _)).
  rewrite (fold_result_ext _ _ (attempt_extend cli _ (halt_events sudo_flag w) w)).
  destruct (fold_result _ _ _) as [l|e]; [|done].
  reflexivity.
Qed.

End Run.

(** ** The paths of the state folders *)

Module Paths.
Import Py Os ArbDeploy Node Phases PyFacts NodeFacts.

Lemma free_of_app c a b : free_of c (a +:+ b) = free_of c a && free_of c b.
Proof.
  induction a as [|x a IH]; [done|].
  change (free_of c (String x (a +:+ b)) =
          free_of c (String x a) && free_of c b).
  simpl. rewrite IH. by rewrite andb_assoc.
Qed.

Lemma app_cons_string c a b : String c a +:+ b = String c (a +:+ b).
Proof. reflexivity. Qed.

Lemma pieces_cons s : ∃ piece rest, pieces s = piece :: rest.
Proof.
  induction s as [|c s (piece & rest & IH)]; simpl; [by eexists _, _|].
  rewrite IH. destruct (Ascii.eqb c "/"); by eexists _, _.
Qed.

Lemma pieces_sep s : pieces (String "/" s) = "" :: pieces s.
Proof. simpl. by destruct (pieces_cons s) as (piece & rest & ->). Qed.

(** ["/".join(s.split("/"))] is [s]. *)
Lemma join_pieces s : join_sep (pieces s) = s.
Proof.
  induction s as [|c s IH]; [done|]. simpl.
  destruct (pieces_cons s) as (piece & rest & Hs). rewrite Hs in *.
  destruct (Ascii.eqb_spec c "/") as [->|_].
  - change (join_sep ("" :: piece :: rest))
      with ("" +:+ "/" +:+ join_sep (piece :: rest)).
    by rewrite IH.
  - rewrite <- IH. by destruct rest.
Qed.

Lemma pieces_free comp t :
  free_of "/" comp = true →
  pieces (comp +:+ String "/" t) = comp :: pieces t.
Proof.
  induction comp as [|c comp IH]; intros Hfree.
  { rewrite app_empty_l. apply pieces_sep. }
  simpl in Hfree. apply andb_true_iff in Hfree as [Hc Hcomp].
  apply negb_true_iff in Hc.
  rewrite app_cons_string. simpl. by rewrite (IH Hcomp), Hc.
Qed.

Lemma pieces_single comp : free_of "/" comp = true → pieces comp = [comp].
Proof.
  induction comp as [|c comp IH]; [done|]. simpl.
  intros [Hc Hcomp]%andb_true_iff. apply negb_true_iff in Hc.
  by rewrite (IH Hcomp), Hc.
Qed.

Lemma pieces_join comps :
  comps ≠ [] → forallb (free_of "/") comps = true →
  pieces (join_sep comps) = comps.
Proof.
  induction comps as [|comp [|comp' rest] IH]; [done|..]; intros _ Hfree.
  - simpl in Hfree. apply andb_true_iff in Hfree as [Hcomp _].
    by apply pieces_single.
  - change (forallb (free_of "/") (comp :: comp' :: rest))
      with (free_of "/" comp && forallb (free_of "/") (comp' :: rest)) in Hfree.
    apply andb_true_iff in Hfree as [Hcomp Hrest].
    change (pieces (comp +:+ String "/" (join_sep (comp' :: rest))) =
            comp :: comp' :: rest).
    by rewrite pieces_free, IH.
Qed.

Lemma join_sep_app xs ys :
  xs ≠ [] → ys ≠ [] →
  join_sep (xs ++ ys)%list = join_sep xs +:+ "/" +:+ join_sep ys.
Proof.
  intros Hxs Hys. induction xs as [|x [|x' xs] IH]; [done|..].
  - destruct ys; done.
  - change (x +:+ "/" +:+ join_sep ((x' :: xs) ++ ys) =
            (x +:+ "/" +:+ join_sep (x' :: xs)) +:+ "/" +:+ join_sep ys).
    rewrite IH by done. by rewrite !app_assoc_string.
Qed.

Lemma ordinary_free comp : ordinary comp = true → free_of "/" comp = true.
Proof.
  unfold ordinary.
  by intros [[[? _]%andb_true_iff _]%andb_true_iff _]%andb_true_iff.
Qed.

Lemma plain_name_ordinary comp : plain_name comp = true → ordinary comp = true.
Proof.
  unfold plain_name, ordinary. rewrite !andb_true_iff.
  by intros [[[[_ ?] ?] ?] ?].
Qed.

Lemma ordinary_cons comp :
  ordinary comp = true →
  ∃ c rest, comp = String c rest ∧ Ascii.eqb c "/" = false.
Proof.
  unfold ordinary. destruct comp as [|c rest]; [done|].
  simpl. intros Hcomp. exists c, rest. split; [done|].
  by destruct (Ascii.eqb c "/").
Qed.

Lemma forallb_ordinary_free comps :
  forallb ordinary comps = true → forallb (free_of "/") comps = true.
Proof.
  rewrite !forallb_forall. intros Hall x Hx. by apply ordinary_free, Hall.
Qed.

Lemma collapse_ordinary rooted comps : ∀ new_comps,
  forallb ordinary comps = true →
  collapse rooted comps new_comps = (rev new_comps ++ comps)%list.
Proof.
  induction comps as [|comp comps IH]; intros new_comps Hall; simpl.
  { by rewrite app_nil_r. }
  simpl in Hall. apply andb_true_iff in Hall as [Hcomp Hall].
  unfold ordinary in Hcomp. rewrite !andb_true_iff, !negb_true_iff in Hcomp.
  destruct Hcomp as [[[_ ->] ->] ->]. simpl.
  rewrite IH by done. simpl. by rewrite <- app_assoc.
Qed.

Lemma join_sep_cons comps :
  comps ≠ [] → forallb ordinary comps = true →
  ∃ c rest, join_sep comps = String c rest ∧ Ascii.eqb c "/" = false.
Proof.
  destruct comps as [|comp comps]; [done|]. intros _ Hall.
  simpl in Hall. apply andb_true_iff in Hall as [Hcomp _].
  apply ordinary_cons in Hcomp as (c & rest & -> & Hc).
  destruct comps; simpl; eauto.
Qed.

(** [normpath] leaves a rooted path of ordinary components as it is. *)
Lemma normpath_rooted comps :
  comps ≠ [] → forallb ordinary comps = true →
  normpath ("/" +:+ join_sep comps) = "/" +:+ join_sep comps.
Proof.
  intros Hne Hall.
  destruct (join_sep_cons comps Hne Hall) as (c & rest & Htext & Hc).
  unfold normpath.
  change ("/" +:+ join_sep comps) with (String "/" (join_sep comps)).
  rewrite pieces_sep, pieces_join by (done || by apply forallb_ordinary_free).
  cbn [String.eqb starts_with_sep]. 
  assert (Hslashes : initial_slashes (String "/" (join_sep comps)) = "/").
  { rewrite Htext. unfold initial_slashes.
    destruct (Ascii.eqb_spec c "/") as [->|Hne']; [done|].
    destruct c as [[] [] [] [] [] [] [] []]; try done. }
  rewrite Hslashes. simpl collapse.
  rewrite collapse_ordinary by done. simpl. reflexivity.
Qed.

Lemma ends_with_sep_app a b :
  b ≠ "" → ends_with_sep (a +:+ b) = ends_with_sep b.
Proof.
  intros Hb. induction a as [|c a IH]; [done|].
  rewrite app_cons_string. simpl. rewrite IH.
  destruct (a +:+ b) eqn:Heq; [|done].
  destruct a; [|done]. by rewrite app_empty_l in Heq.
Qed.

Lemma ends_with_sep_free s : free_of "/" s = true → ends_with_sep s = false.
Proof.
  induction s as [|c s IH]; [done|]. simpl.
  intros [Hc Hs]%andb_true_iff. apply negb_true_iff in Hc.
  destruct s; [done|]. by apply IH.
Qed.

Lemma ends_with_sep_join comps :
  comps ≠ [] → forallb ordinary comps = true →
  ends_with_sep (join_sep comps) = false.
Proof.
  induction comps as [|comp [|comp' rest] IH]; [done|..]; intros _ Hall.
  - simpl in Hall. apply andb_true_iff in Hall as [Hcomp _].
    by apply ends_with_sep_free, ordinary_free.
  - change (forallb ordinary (comp :: comp' :: rest))
      with (ordinary comp && forallb ordinary (comp' :: rest)) in Hall.
    apply andb_true_iff in Hall as [_ Hrest].
    change (ends_with_sep (comp +:+ "/" +:+ join_sep (comp' :: rest)) = false).
    destruct (join_sep_cons (comp' :: rest)) as (c & t & Htext & _); [done..|].
    rewrite <- app_assoc_string, ends_with_sep_app by (by rewrite Htext).
    by apply IH.
Qed.

Lemma path_join_sep a b :
  a ≠ "" → ends_with_sep a = false → starts_with_sep b = false →
  path_join a b = a +:+ "/" +:+ b.
Proof.
  intros Ha Hend Hstart. unfold path_join. rewrite Hstart, Hend.
  by destruct a.
Qed.

(** A plain directory is [/] or a slash before each of its components. *)
Lemma plain_dir_rooted dir :
  plain_dir dir = true →
  dir = "/" ∨
  ∃ comps, comps ≠ [] ∧ forallb ordinary comps = true ∧
           dir = "/" +:+ join_sep comps.
Proof.
  unfold plain_dir. intros [_ Hdir]%andb_true_iff.
  destruct (pieces dir) as [|[|] [|comp rest]] eqn:Hpieces; try done.
  apply orb_true_iff in Hdir as [Hroot|Hall].
  { left. by apply String.eqb_eq. }
  right. exists (comp :: rest). split; [done|]. split.
  - rewrite forallb_forall in Hall. apply forallb_forall.
    intros x Hx. by apply plain_name_ordinary, Hall.
  - rewrite <- (join_pieces dir), Hpieces. reflexivity.
Qed.

(** [abspath] of a relative path of ordinary components in a plain
    directory. *)
Lemma abspath_ordinary dir comps :
  plain_dir dir = true → comps ≠ [] → forallb ordinary comps = true →
  abspath dir (join_sep comps) =
  (if decide (dir = "/") then "/" else dir +:+ "/") +:+ join_sep comps.
Proof.
  intros Hdir Hne Hall.
  destruct (join_sep_cons comps Hne Hall) as (c & rest & Htext & Hc).
  assert (Hstart : starts_with_sep (join_sep comps) = false).
  { rewrite Htext. simpl. destruct (Ascii.eqb_spec c "/") as [->|Hne']; [done|].
    destruct c as [[] [] [] [] [] [] [] []]; try done. }
  unfold abspath. rewrite Hstart.
  destruct (plain_dir_rooted dir Hdir) as [->|(ds & Hds & Hord & ->)].
  - rewrite decide_True by done.
    change (path_join "/" (join_sep comps)) with
      (if starts_with_sep (join_sep comps) then join_sep comps
       else "/" +:+ join_sep comps).
    rewrite Hstart. by apply normpath_rooted.
  - rewrite decide_False.
    2:{ destruct (join_sep_cons ds Hds Hord) as (d & t & -> & _). done. }
    rewrite path_join_sep; [| done | | done].
    2:{ change ("/" +:+ join_sep ds) with ("/" +:+ join_sep ds).
        rewrite ends_with_sep_app; [by apply ends_with_sep_join|].
        destruct (join_sep_cons ds Hds Hord) as (d & t & -> & _). done. }
    rewrite !app_assoc_string, <- !join_sep_app by done.
    apply normpath_rooted.
    + by destruct ds.
    + rewrite forallb_app. by rewrite Hord, Hall.
Qed.

Lemma ordinary_starts comp :
  ordinary comp = true → starts_with_sep comp = false.
Proof.
  intros (c & rest & -> & Hc)%ordinary_cons. simpl.
  destruct (Ascii.eqb_spec c "/") as [->|Hne]; [done|].
  destruct c as [[] [] [] [] [] [] [] []]; try done.
Qed.

Lemma ordinary_validator suffix :
  free_of "/" suffix = true → ordinary ("validator" +:+ suffix) = true.
Proof.
  intros Hfree. unfold ordinary. rewrite free_of_app, Hfree.
  change ("validator" +:+ suffix)
    with (String "v" (String "a" ("lidator" +:+ suffix))).
  reflexivity.
Qed.

(** The path of a folder [validator...] of a rollup. *)
Lemma folder_text dir rollup suffix :
  plain_dir dir = true → plain_name rollup = true →
  free_of "/" suffix = true →
  abspath dir (path_join (path_join "rollups" rollup) ("validator" +:+ suffix)) =
  stem dir rollup +:+ suffix.
Proof.
  intros Hdir Hname%plain_name_ordinary Hlast%ordinary_validator.
  assert (Hrel : path_join (path_join "rollups" rollup) ("validator" +:+ suffix) =
                 join_sep ["rollups"; rollup; "validator" +:+ suffix]).
  { rewrite (path_join_sep "rollups" rollup);
      [|done|done|by apply ordinary_starts].
    rewrite path_join_sep;
      [by rewrite !app_assoc_string|done| |by apply ordinary_starts].
    rewrite <- app_assoc_string, ends_with_sep_app.
    - by apply ends_with_sep_free, ordinary_free.
    - by apply ordinary_cons in Hname as (c & t & -> & _). }
  rewrite Hrel, abspath_ordinary; [|done|done|].
  2:{ simpl. by rewrite Hname, Hlast. }
  unfold stem. simpl join_sep. by rewrite !app_assoc_string.
Qed.

Lemma digit_free n : Ascii.eqb (pretty_N_char n) "/" = false.
Proof. unfold pretty_N_char. by repeat case_match. Qed.

Lemma pretty_N_go_free x : ∀ s,
  free_of "/" s = true → free_of "/" (pretty_N_go x s) = true.
Proof.
  induction (N.lt_wf_0 x) as [x _ IH]; intros s Hs.
  destruct (decide (x = 0)%N) as [->|Hx]; [by rewrite pretty_N_go_0|].
  rewrite pretty_N_go_step by lia. apply IH.
  - apply N.div_lt; lia.
  - simpl. by rewrite digit_free.
Qed.

Lemma pretty_nat_free i : free_of "/" (pretty (Z.of_nat i)) = true.
Proof.
  destruct i as [|i]; [done|]. simpl Z.of_nat.
  change (free_of "/" (pretty_N_go (N.pos (Pos.of_succ_nat i)) "") = true).
  by apply pretty_N_go_free.
Qed.

(** For a plain working directory and rollup name, the template is the
    stem followed by its conversion. *)
Lemma states_path_text dir rollup :
  plain_dir dir = true → plain_name rollup = true →
  states_path dir rollup = stem dir rollup +:+ "%s".
Proof. intros Hdir Hname. by apply (folder_text dir rollup "%s"). Qed.

(** And the state folder of [i] is the stem followed by the index. *)
Lemma state_folder_text dir rollup i :
  plain_dir dir = true → plain_name rollup = true →
  state_folder dir rollup i = stem dir rollup +:+ pretty (Z.of_nat i).
Proof.
  intros Hdir Hname.
  apply (folder_text dir rollup (pretty (Z.of_nat i))); [done..|].
  apply pretty_nat_free.
Qed.

Lemma state_folder_inj dir rollup :
  plain_dir dir = true → plain_name rollup = true →
  Inj (=) (=) (state_folder dir rollup).
Proof.
  intros Hdir Hname i j. rewrite !state_folder_text by done. intros Heq.
  by apply (inj (String.app _)), (inj pretty), (inj Z.of_nat) in Heq.
Qed.

End Paths.

(** ** Discovery *)

Module Discovery.
Import Py Os ArbDeploy Node Phases PyFacts NodeFacts Run Paths.

Lemma first_gap_range present fuel : ∀ n,
  n ≤ first_gap present fuel n ≤ n + fuel.
Proof.
  induction fuel as [|fuel IH]; intros n; simpl; [lia|].
  destruct (present n); [|lia]. specialize (IH (S n)). lia.
Qed.

(** Every index the scan passed over is present. *)
Lemma first_gap_present present fuel : ∀ n k,
  n ≤ k < first_gap present fuel n → present k = true.
Proof.
  induction fuel as [|fuel IH]; intros n k; simpl; [lia|].
  destruct (present n) eqn:Hn; [|lia].
  intros Hk. destruct (decide (k = n)) as [->|Hne]; [done|].
  apply (IH (S n)). lia.
Qed.

(** A scan that ends before its fuel runs out ends at a missing index. *)
Lemma first_gap_missing present fuel : ∀ n,
  first_gap present fuel n < n + fuel →
  present (first_gap present fuel n) = false.
Proof.
  induction fuel as [|fuel IH]; intros n; simpl; [lia|].
  destruct (present n) eqn:Hn; [|done].
  intros Hlt. apply IH. lia.
Qed.

(** The scan of the script, where its test does not raise. *)
Lemma scan_first_gap exists_at present fuel :
  (∀ k, exists_at k = Ok (present k)) →
  ∀ n, scan exists_at fuel n = Ok (first_gap present fuel n).
Proof.
  intros Htest. induction fuel as [|fuel IH]; intros n; simpl; [done|].
  rewrite Htest. cbn [mbind result_bind]. destruct (present n); [apply IH|done].
Qed.

(** The scan of the script, where its test raises. *)
Lemma scan_raises exists_at fuel n e :
  exists_at n = Raise e → scan exists_at (S fuel) n = Raise e.
Proof. intros Htest. simpl. by rewrite Htest. Qed.

(** More distinct paths than the file system holds cannot all exist. *)
Lemma too_many (path : nat → string) (X : gset string) n :
  Inj (=) (=) path →
  (∀ k, n ≤ k < n + S (size X) → path k ∈ X) → False.
Proof.
  intros Hinj Hall.
  assert (Hsub : list_to_set (path <$> seq n (S (size X))) ⊆ X).
  { intros p [k [-> Hk%elem_of_seq]]%elem_of_list_to_set%list_elem_of_fmap.
    apply Hall. lia. }
  apply subseteq_size in Hsub.
  rewrite size_list_to_set in Hsub.
  - rewrite length_fmap, length_seq in Hsub. lia.
  - apply NoDup_fmap_2; [done|apply NoDup_seq].
Qed.

(** With enough fuel for the paths that exist, the scan over distinct
    paths ends at one that does not exist. *)
Lemma first_gap_stops (path : nat → string) (X : gset string) :
  Inj (=) (=) path →
  path (first_gap (λ n, bool_decide (path n ∈ X)) (S (size X)) 1) ∉ X.
Proof.
  intros Hinj.
  set (present := λ n, bool_decide (path n ∈ X)).
  set (fuel := S (size X)).
  destruct (decide (first_gap present fuel 1 < 1 + fuel)) as [Hlt|Hge].
  - apply first_gap_missing in Hlt. by apply bool_decide_eq_false in Hlt.
  - exfalso. apply (too_many path X 1 Hinj).
    intros k Hk. apply (bool_decide_eq_true (path k ∈ X)).
    apply (first_gap_present present fuel 1 k).
    pose proof (first_gap_range present fuel 1). unfold fuel in *. lia.
Qed.

(** *** Formatting the template *)

(** Text without [%] is copied by the formatting. *)
Lemma percent_free s t args :
  free_of "%" s = true →
  percent (s +:+ t) args = String.append s <$> percent t args.
Proof.
  induction s as [|x s IH]; intros Hfree.
  { change ("" +:+ t) with t. destruct (percent t args); reflexivity. }
  simpl in Hfree. apply andb_true_iff in Hfree as [Hx Hs].
  apply negb_true_iff in Hx.
  change (percent (String x (s +:+ t)) args =
          String.append (String x s) <$> percent t args).
  simpl. rewrite Hx, (IH Hs). by destruct (percent t args).
Qed.

Lemma plain_dir_free dir : plain_dir dir = true → free_of "%" dir = true.
Proof. unfold plain_dir. by intros [? _]%andb_true_iff. Qed.

Lemma plain_name_free rollup :
  plain_name rollup = true → free_of "%" rollup = true.
Proof.
  unfold plain_name. by intros [[[[? _]%andb_true_iff _]%andb_true_iff
    _]%andb_true_iff _]%andb_true_iff.
Qed.

Lemma stem_free dir rollup :
  plain_dir dir = true → plain_name rollup = true →
  free_of "%" (stem dir rollup) = true.
Proof.
  intros Hdir%plain_dir_free Hname%plain_name_free. unfold stem.
  destruct (decide (dir = "/")); rewrite !free_of_app, ?Hdir, Hname; done.
Qed.

(** For a plain working directory and rollup name, [states_path % i] is
    the state folder of [i]. *)
Lemma states_path_format dir rollup i :
  plain_dir dir = true → plain_name rollup = true →
  percent (states_path dir rollup) [PyInt (Z.of_nat i)] =
  Ok (state_folder dir rollup i).
Proof.
  intros Hdir Hname.
  rewrite states_path_text, state_folder_text, percent_free
    by (done || by apply stem_free).
  cbv [percent Ascii.eqb Bool.eqb fmap result_fmap str].
  by rewrite app_empty_r.
Qed.

(** For a plain working directory and rollup name the scan does not
    raise. *)
Lemma validators_found_plain dir rollup w :
  plain_dir dir = true → plain_name rollup = true →
  validators_found (states_path dir rollup) w =
  Ok (first_gap (λ n, bool_decide (state_folder dir rollup n ∈ entries w))
        (S (size (entries w))) 1).
Proof.
  intros Hdir Hname. unfold validators_found. apply scan_first_gap.
  intros k. by rewrite states_path_format.
Qed.

(** *** The scan ends for every template *)

Lemma length_app_string a b :
  String.length (a +:+ b) = String.length a + String.length b.
Proof.
  induction a as [|x a IH]; [done|].
  change (S (String.length (a +:+ b)) = S (String.length a + String.length b)).
  by rewrite IH.
Qed.

Lemma app_inj_r a b t : a +:+ t = b +:+ t → a = b.
Proof.
  revert b. induction a as [|x a IH]; intros [|y b] Heq; [done|..].
  - apply (f_equal String.length) in Heq.
    rewrite !length_app_string in Heq. simpl in Heq. lia.
  - apply (f_equal String.length) in Heq.
    rewrite !length_app_string in Heq. simpl in Heq. lia.
  - change (String x (a +:+ t) = String y (b +:+ t)) in Heq.
    injection Heq as -> Heq. f_equal. by apply IH.
Qed.

(** Formatting a template with one integer either puts that integer
    between two fixed texts, or raises the same error whatever the
    integer. *)
Lemma percent_int template :
  (∃ pre post, ∀ z, percent template [PyInt z] = Ok (pre +:+ pretty z +:+ post)) ∨
  (∃ e, ∀ z, percent template [PyInt z] = Raise e).
Proof.
  assert (Hlen : ∃ n, String.length template ≤ n) by eauto.
  destruct Hlen as [n Hn]. revert template Hn.
  induction n as [|n IH]; intros [|c t1] Hn; simpl in Hn; try lia.
  { right. by exists TypeError. }
  { right. by exists TypeError. }
  simpl. destruct (Ascii.eqb c "%").
  - destruct t1 as [|d t2]; [right; by exists ValueError|]. simpl in Hn.
    destruct (Ascii.eqb d "s").
    { destruct (percent t2 []) as [r|e].
      - left. by exists "", r.
      - right. by exists e. }
    destruct (Ascii.eqb d "d").
    { destruct (percent t2 []) as [r|e].
      - left. by exists "", r.
      - right. by exists e. }
    destruct (Ascii.eqb d "%"); [|right; by exists ValueError].
    destruct (IH t2) as [(pre & post & Hok)|[e He]]; [lia|..].
    + left. exists (String "%" pre), post. intros z. by rewrite Hok.
    + right. exists e. intros z. by rewrite He.
  - destruct (IH t1) as [(pre & post & Hok)|[e He]]; [lia|..].
    + left. exists (String c pre), post. intros z. by rewrite Hok.
    + right. exists e. intros z. by rewrite He.
Qed.

(** The fuel [validators_found] passes is enough, whatever the template:
    the scan raises the error of the formatting, or ends at a folder that
    does not exist. *)
Lemma validators_found_stops template w :
  (∃ e, validators_found template w = Raise e ∧
        ∀ z, percent template [PyInt z] = Raise e) ∨
  (∃ n folder,
     validators_found template w = Ok n ∧ 1 ≤ n ∧
     percent template [PyInt (Z.of_nat n)] = Ok folder ∧
     folder ∉ entries w).
Proof.
  destruct (percent_int template) as [(pre & post & Hok)|[e He]].
  - right. set (path := λ k : nat, pre +:+ pretty (Z.of_nat k) +:+ post).
    assert (Hinj : Inj (=) (=) path).
    { intros i j Heq. unfold path in Heq.
      apply (inj (String.app _)), app_inj_r, (inj pretty) in Heq.
      by apply (inj Z.of_nat). }
    exists (first_gap (λ n, bool_decide (path n ∈ entries w))
              (S (size (entries w))) 1),
           (path (first_gap (λ n, bool_decide (path n ∈ entries w))
                    (S (size (entries w))) 1)).
    split; [|split; [|split]].
    + unfold validators_found. apply scan_first_gap.
      intros k. by rewrite Hok.
    + apply (first_gap_range _ (S (size (entries w))) 1).
    + apply Hok.
    + by apply first_gap_stops.
  - left. exists e. split; [|done].
    unfold validators_found. apply scan_raises. by rewrite He.
Qed.







End Discovery.

(** ** Failure and the order of the phases *)

Module Lifecycle.
Import Py Os ArbDeploy Node Phases PyFacts NodeFacts Run Discovery.

Local Opaque percent.

Lemma since_log w w' evs : log w' = log w ++ evs → since w w' = evs.
Proof. intros Hlog. unfold since. by rewrite Hlog, drop_app_length. Qed.

(** The launch when the build is due and fails. *)
Lemma launch_build_fails sudo_flag build_flag up_flag compose n l w :
  negb up_flag || build_flag = true →
  build_status w ≠ 0%Z →
  launch sudo_flag build_flag up_flag compose n l w =
  (Raise (SystemExit 1),
   emit (BuildValidator sudo_flag)
     (store_manifest (contents l) (emit (WriteFile compose (contents l)) w))).
Proof.
  intros Hdue Hstatus. unfold launch, mbind, M_bind, write_file.
  rewrite Hdue. unfold build_validator. simpl.
  by rewrite bool_decide_eq_true_2.
Qed.

(** The launch when no build is due: the manifest is written and the
    deployment brought up. *)
Lemma launch_without_build sudo_flag build_flag up_flag compose n l w :
  negb up_flag || build_flag = false →
  ∃ w', launch sudo_flag build_flag up_flag compose n l w = (Ok tt, w') ∧
        log w' = log w ++
          [WriteFile compose (contents l);
           Print ("Deploying " +:+ pretty n +:+ " validators for rollup "
                    +:+ str (rollup_address l));
           Run ("docker-compose -f " +:+ compose +:+ " up") sudo_flag false false].
Proof.
  intros Hdue. unfold launch, mbind, M_bind, write_file.
  rewrite Hdue. destruct up_flag, build_flag; try done. simpl.
  unfold lift. rewrite up_command. simpl.
  eexists. split; [reflexivity|]. simpl. by rewrite <- !app_assoc.
Qed.

Lemma fold_result_app {A S} (f : A → S → result S) xs ys s :
  fold_result f (xs ++ ys) s = s' ← fold_result f xs s; fold_result f ys s'.
Proof.
  revert s. induction xs as [|x xs IH]; intros s; [done|].
  simpl. destruct (f x s) as [s'|e]; [apply IH|done].
Qed.

(** A turn on a configuration of the data model succeeds when the
    configuration has a password, and fails for the lack of one when it
    has none and the command line gives none either. *)
Lemma resolve_conforming cli path w i l m :
  truthy cli = false →
  loaded w (path i) = Ok (JObject m) →
  conforms m →
  match m !! "password" with
  | Some _ => ∃ l', resolve cli path w i l = Ok l'
  | None => resolve cli path w i l = Raise (Exception PASSWORD_REQUIRED)
  end.
Proof.
  intros Hcli Hdoc ([a Ha] & [u Hu] & Hpw). unfold resolve. rewrite Hdoc.
  cbn [mbind result_bind].
  destruct (m !! "password") as [p|] eqn:Hp.
  - destruct (Hpw p eq_refl) as [y ->].
    destruct (Flags.body_ok cli path i (JObject m) l a u (" -password=" +:+ y))
      as (block & _ & Hbody).
    + by simpl; rewrite Ha.
    + by simpl; rewrite Hu.
    + unfold password_flag, has_key. rewrite Hcli. simpl. rewrite Hp.
      by rewrite bool_decide_eq_true_2 by eauto.
    + eauto.
  - rewrite body_node. unfold node, password_flag, has_key.
    simpl. rewrite Ha, Hu, Hcli, Hp. simpl. done.
Qed.

(** A loop over conforming configurations, one of which has no
    password, fails for the lack of a password. *)
Lemma fold_no_password cli path w xs :
  truthy cli = false →
  (∀ j, j ∈ xs → ∃ m, loaded w (path j) = Ok (JObject m) ∧ conforms m) →
  (∃ i m, i ∈ xs ∧ loaded w (path i) = Ok (JObject m) ∧ m !! "password" = None) →
  ∀ l, fold_result (resolve cli path w) xs l = Raise (Exception PASSWORD_REQUIRED).
Proof.
  intros Hcli. induction xs as [|x xs IH]; intros Hall (i & m & Hi & Hdoc & Hpw) l.
  { by apply elem_of_nil in Hi. }
  destruct (Hall x) as (mx & Hx & Hconf); [by left|].
  pose proof (resolve_conforming cli path w x l mx Hcli Hx Hconf) as Hturn.
  simpl. destruct (mx !! "password") as [p|] eqn:Hp.
  - destruct Hturn as [l' ->]. cbn [mbind result_bind].
    apply IH.
    + intros j Hj. apply Hall. by right.
    + apply elem_of_cons in Hi as [->|Hi]; [congruence|]. by exists i, m.
  - by rewrite Hturn.
Qed.

(** C2.  Password-failure atomicity, for a plain working directory and
    rollup name and configurations of the data model.  When no
    command-line password is given ([None] or the empty string) and the
    configuration of some discovered node [i] has no [password] field,
    the nodes up to [i] having configurations with a rollup address, a
    string endpoint and, if any, a string password, [deploy] fails with
    the script's missing-password error right after the teardown, and
    the manifest is neither written nor changed: all the run did is to
    run the commands of the teardown. *)
Theorem password_failure_atomic (sudo_flag build_flag up_flag : bool)
    (rollup : string) (cli : option string) (w : world) (n i : nat)
    (m : gmap string value) :
  truthy cli = false →
  plain_dir (cwd w) = true →
  plain_name rollup = true →
  validators_found (states_path (cwd w) rollup) w = Ok n →
  i < n →
  loaded w (state_folder (cwd w) rollup i) = Ok (JObject m) →
  m !! "password" = None →
  (∀ j, j ≤ i →
     ∃ mj, loaded w (state_folder (cwd w) rollup j) = Ok (JObject mj) ∧
           conforms mj) →
  deploy sudo_flag build_flag up_flag rollup cli w =
    (Raise (Exception PASSWORD_REQUIRED), extend (halt_events sudo_flag w) w) ∧
  manifest (extend (halt_events sudo_flag w) w) = manifest w ∧
  Forall is_run (since w (extend (halt_events sudo_flag w) w)).
Proof.
  intros Hcli Hdir Hname Hfound Hi Hdoc Hpw Hmodel.
  split; [|split; [done|rewrite since_extend; apply halt_events_run]].
  rewrite deploy_run, Hfound.
  rewrite (attempt_all_resolve cli _ (state_folder (cwd w) rollup))
    by (intros k; by apply states_path_format).
  unfold resolve_all.
  replace n with (S i + (n - S i)) by lia.
  rewrite seq_app, fold_result_app.
  rewrite (fold_no_password cli (state_folder (cwd w) rollup) w (seq 0 (S i)));
    [done|done|..].
  - intros j Hj%elem_of_seq. apply Hmodel. lia.
  - exists i, m. split; [apply elem_of_seq; lia|done].
Qed.

Lemma password_failure_atomic_witness :
  truthy (Some "") = false ∧
  plain_dir (cwd (Samples.tree [0; 1] Samples.config_open 0)) = true ∧
  plain_name "mychain" = true ∧
  validators_found (states_path "/w" "mychain")
    (Samples.tree [0; 1] Samples.config_open 0) = Ok 2 ∧
  loaded (Samples.tree [0; 1] Samples.config_open 0)
    (state_folder "/w" "mychain" 1) = Ok (JObject Samples.config_open) ∧
  Samples.config_open !! "password" = None ∧
  deploy false false false "mychain" (Some "")
    (Samples.tree [0; 1] Samples.config_open 0) =
  (Raise (Exception PASSWORD_REQUIRED),
   extend [Run ("docker ps | " +:+ ps) false true true]
     (Samples.tree [0; 1] Samples.config_open 0)).
Proof.
  assert (Hdir : plain_dir (cwd (Samples.tree [0; 1] Samples.config_open 0)) = true)
    by (vm_compute; reflexivity).
  assert (Hname : plain_name "mychain" = true) by (vm_compute; reflexivity).
  assert (Hfound : validators_found (states_path "/w" "mychain")
                     (Samples.tree [0; 1] Samples.config_open 0) = Ok 2)
    by (vm_compute; reflexivity).
  assert (Hdoc : ∀ j, j ≤ 1 →
            loaded (Samples.tree [0; 1] Samples.config_open 0)
              (state_folder "/w" "mychain" j) = Ok (JObject Samples.config_open)).
  { intros [|[|j]] Hj; [vm_compute; reflexivity..|lia]. }
  assert (Hpw : Samples.config_open !! "password" = None)
    by (vm_compute; reflexivity).
  assert (Hcli : truthy (Some "") = false) by reflexivity.
  assert (Hmodel : ∀ j, j ≤ 1 →
            ∃ mj, loaded (Samples.tree [0; 1] Samples.config_open 0)
                    (state_folder "/w" "mychain" j) = Ok (JObject mj) ∧
                  conforms mj).
  { intros j Hj. exists Samples.config_open. split; [by apply Hdoc|].
    split; [|split].
    - eexists. vm_compute. reflexivity.
    - eexists. vm_compute. reflexivity.
    - intros p Hp. rewrite Hpw in Hp. discriminate Hp. }
  split; [exact Hcli|]. split; [exact Hdir|]. split; [exact Hname|].
  split; [exact Hfound|]. split; [exact (Hdoc 1 (le_n 1))|].
  split; [exact Hpw|].
  exact (proj1 (password_failure_atomic false false false "mychain" (Some "")
                  (Samples.tree [0; 1] Samples.config_open 0) 2 1
                  Samples.config_open Hcli Hdir Hname Hfound (le_n 2)
                  (Hdoc 1 (le_n 1)) Hpw Hmodel)).
Defined.

(** C7, as amended.  Build-failure abort.  Whenever a run of [deploy]
    invokes the image build and the build reports a non-zero status, the
    run ends there with [exit(1)]: the process exits with status 1,
    whatever the build's status was, and all the run did is the teardown,
    the writing of the manifest and the build, so the deployment is never
    brought up. *)
Theorem build_failure_aborts (sudo_flag build_flag up_flag : bool)
    (rollup : string) (cli : option string) (w w' : world) (r : result unit) :
  deploy sudo_flag build_flag up_flag rollup cli w = (r, w') →
  BuildValidator sudo_flag ∈ since w w' →
  build_status w ≠ 0%Z →
  r = Raise (SystemExit 1) ∧
  exit_status r = 1%Z ∧
  ∃ text,
    since w w' =
      halt_events sudo_flag w ++
      [WriteFile (compose_path w) text; BuildValidator sudo_flag] ∧
    manifest w' = Some text.
Proof.
  rewrite deploy_run.
  pose proof (halt_events_run sudo_flag w) as Hruns.
  rewrite Forall_forall in Hruns.
  destruct (validators_found _ _) as [n|e].
  2:{ intros [= <- <-] Hbuild _. exfalso.
      rewrite since_extend in Hbuild. by apply Hruns in Hbuild. }
  destruct (attempt_all _ _ _ _) as [l|e].
  - destruct (negb up_flag || build_flag) eqn:Hdue.
    + intros Hrun _ Hstatus.
      rewrite launch_build_fails in Hrun by done. injection Hrun as <- <-.
      split; [done|]. split; [done|]. exists (contents l). split; [|done].
      apply since_log. simpl. by rewrite <- !app_assoc.
    + intros Hrun Hbuild _. exfalso.
      destruct (launch_without_build sudo_flag build_flag up_flag (compose_path w)
                  n l (extend (halt_events sudo_flag w) w) Hdue)
        as (w2 & Hw2 & Hlog).
      rewrite Hw2 in Hrun. injection Hrun as _ <-.
      simpl in Hlog. rewrite <- app_assoc in Hlog.
      rewrite (since_log _ _ _ Hlog) in Hbuild.
      apply elem_of_app in Hbuild as [Hbuild|Hbuild].
      * by apply Hruns in Hbuild.
      * repeat (apply elem_of_cons in Hbuild as [?|Hbuild]; [done|]).
        by apply elem_of_nil in Hbuild.
  - intros [= <- <-] Hbuild _. exfalso.
    rewrite since_extend in Hbuild. by apply Hruns in Hbuild.
Qed.

Lemma build_failure_aborts_witness :
  deploy false false false "mychain" None (Samples.tree [0] Samples.config_full 2) =
    (Raise (SystemExit 1),
     snd (deploy false false false "mychain" None
            (Samples.tree [0] Samples.config_full 2))) ∧
  BuildValidator false ∈
    since (Samples.tree [0] Samples.config_full 2)
      (snd (deploy false false false "mychain" None
              (Samples.tree [0] Samples.config_full 2))) ∧
  build_status (Samples.tree [0] Samples.config_full 2) ≠ 0%Z.
Proof.
  assert (Hbuild : BuildValidator false ∈
            since (Samples.tree [0] Samples.config_full 2)
              (snd (deploy false false false "mychain" None
                      (Samples.tree [0] Samples.config_full 2)))).
  { apply (bool_decide_eq_true (_ ∈ _)). vm_compute. reflexivity. }
  assert (Hstatus : build_status (Samples.tree [0] Samples.config_full 2) ≠ 0%Z)
    by done.
  split; [|by split].
  destruct (build_failure_aborts false false false "mychain" None
              (Samples.tree [0] Samples.config_full 2) _ _
              (surjective_pairing _) Hbuild Hstatus) as (Hr & _).
  rewrite <- Hr. apply surjective_pairing.
Defined.

(** C7 as stated fails on the status: a build that reports 2 makes the
    process exit with 1. *)
Lemma build_status_counterexample :
  build_status (Samples.tree [0] Samples.config_full 2) = 2%Z ∧
  BuildValidator false ∈
    since (Samples.tree [0] Samples.config_full 2)
      (snd (deploy false false false "mychain" None
              (Samples.tree [0] Samples.config_full 2))) ∧
  exit_status (fst (deploy false false false "mychain" None
                      (Samples.tree [0] Samples.config_full 2))) = 1%Z.
Proof.
  split; [done|]. split.
  - apply (bool_decide_eq_true (_ ∈ _)). vm_compute. reflexivity.
  - vm_compute. reflexivity.
Qed.

(** C8, as amended.  Mutual exclusivity.  A command line with both
    [--build] and [--up] is rejected by the argument parser, with exit
    status 2, before [deploy] is entered: there is no teardown, no write
    of the manifest, no build and no start.  The one thing [main] has done
    by then is to run the network-creation script, which it does before it
    parses its arguments. *)
Theorem build_and_up_rejected (c : command_line) (w : world) :
  given_build c = true →
  given_up c = true →
  main c w =
    (Raise (SystemExit 2),
     emit (Run "./scripts/create-network" false false false) w) ∧
  since w (emit (Run "./scripts/create-network" false false false) w) =
    [Run "./scripts/create-network" false false false] ∧
  manifest (emit (Run "./scripts/create-network" false false false) w) =
    manifest w.
Proof.
  intros Hbuild Hup. split; [|split; [|done]].
  - unfold main, mbind, M_bind, run, parse_args. simpl.
    by rewrite Hbuild, Hup.
  - by rewrite emit_extend, since_extend.
Qed.

Lemma build_and_up_rejected_witness :
  given_build (CommandLine ["mychain"] None false true true) = true ∧
  given_up (CommandLine ["mychain"] None false true true) = true ∧
  main (CommandLine ["mychain"] None false true true)
    (Samples.tree [0] Samples.config_full 0) =
  (Raise (SystemExit 2),
   emit (Run "./scripts/create-network" false false false)
     (Samples.tree [0] Samples.config_full 0)).
Proof.
  split; [done|]. split; [done|].
  by destruct (build_and_up_rejected (CommandLine ["mychain"] None false true true)
                 (Samples.tree [0] Samples.config_full 0)) as [Hmain _].
Defined.

(** C8 as stated fails: by the time the command line is rejected an
    external command has been executed. *)
Lemma mutual_exclusivity_counterexample :
  fst (main (CommandLine ["mychain"] None false true true)
         (Samples.tree [0] Samples.config_full 0)) = Raise (SystemExit 2) ∧
  since (Samples.tree [0] Samples.config_full 0)
    (snd (main (CommandLine ["mychain"] None false true true)
            (Samples.tree [0] Samples.config_full 0))) =
  [Run "./scripts/create-network" false false false].
Proof. split; vm_compute; reflexivity. Qed.

End Lifecycle.

(** ** The trace of a run *)

Module Traces.
Import Py Os ArbDeploy Node Phases Trace PyFacts NodeFacts Run Discovery Lifecycle.

Local Opaque percent.

Lemma since_store w evs text :
  since w (store_manifest text (extend evs w)) = evs.
Proof. unfold since. simpl. by rewrite drop_app_length. Qed.

(** The statements after the loop, in one step. *)
Lemma launch_run sudo_flag build_flag up_flag compose n l w :
  launch sudo_flag build_flag up_flag compose n l w =
  (launch_result build_flag up_flag (build_status w),
   store_manifest (contents l)
     (extend (launch_events sudo_flag build_flag up_flag compose n l
                (build_status w)) w)).
Proof.
  unfold launch, launch_result, launch_events, build_fails, mbind, M_bind,
    write_file, build_validator, print, run, lift, exit, raise, lift.
  rewrite up_command.
  destruct up_flag, build_flag; simpl;
    destruct (bool_decide (build_status w ≠ 0%Z)); simpl;
    unfold store_manifest, emit, extend; simpl;
    by rewrite <- ?app_assoc.
Qed.

(** [deploy] in one step: the teardown, then either the error of the
    scan or of the loop, or the launch. *)
Lemma deploy_trace sudo_flag build_flag up_flag rollup cli w :
  deploy sudo_flag build_flag up_flag rollup cli w =
  match validators_found (states_path (cwd w) rollup) w with
  | Raise e => (Raise e, extend (halt_events sudo_flag w) w)
  | Ok n =>
      match attempt_all cli (states_path (cwd w) rollup) w n with
      | Raise e => (Raise e, extend (halt_events sudo_flag w) w)
      | Ok l =>
          (launch_result build_flag up_flag (build_status w),
           store_manifest (contents l)
             (extend (halt_events sudo_flag w ++
                      launch_events sudo_flag build_flag up_flag
                        (compose_path w) n l (build_status w)) w))
      end
  end.
Proof.
  rewrite deploy_run. destruct (validators_found _ _) as [n|e]; [|done].
  destruct (attempt_all _ _ _ _) as [l|e]; [|done].
  rewrite launch_run. f_equal.
  unfold store_manifest, extend. simpl. by rewrite <- app_assoc.
Qed.

(** [deploy] in one step, for a plain working directory and rollup
    name. *)
Lemma deploy_trace_plain sudo_flag build_flag up_flag rollup cli w n :
  plain_dir (cwd w) = true →
  plain_name rollup = true →
  validators_found (states_path (cwd w) rollup) w = Ok n →
  deploy sudo_flag build_flag up_flag rollup cli w =
  match resolve_all cli (state_folder (cwd w) rollup) w n with
  | Raise e => (Raise e, extend (halt_events sudo_flag w) w)
  | Ok l =>
      (launch_result build_flag up_flag (build_status w),
       store_manifest (contents l)
         (extend (halt_events sudo_flag w ++
                  launch_events sudo_flag build_flag up_flag
                    (compose_path w) n l (build_status w)) w))
  end.
Proof.
  intros Hdir Hname Hfound. rewrite deploy_trace, Hfound.
  by rewrite (attempt_all_resolve cli _ (state_folder (cwd w) rollup))
    by (intros i; by apply states_path_format).
Qed.

End Traces.

(** ** More on the teardown *)

Module Teardown.
Import Py Os ArbDeploy Node Phases Trace PyFacts NodeFacts Run Discovery
  Lifecycle Traces.

(** X1.  [halt_docker] never raises and leaves the files, the manifest
    included, as they are; all it does is run commands.  It brings the old
    deployment down exactly when a manifest file is there, always lists
    the validator containers, and kills and removes them exactly when the
    listing is not empty, whether or not there is a manifest. *)
Theorem halt_docker_sweeps (sudo_flag : bool) (w : world) :
  ∃ w',
    halt_docker sudo_flag w = (Ok tt, w') ∧
    manifest w' = manifest w ∧ entries w' = entries w ∧ files w' = files w ∧
    Forall is_run (since w w') ∧
    (Run "docker-compose -f ./docker-compose.yml down -t 0" sudo_flag true false
       ∈ since w w' ↔ is_Some (manifest w)) ∧
    Run ("docker ps | " +:+ ps) sudo_flag true true ∈ since w w' ∧
    (Run ("docker kill $(" +:+ (if sudo_flag then "sudo " else "")
            +:+ "docker ps | " +:+ ps +:+ ")") sudo_flag true false
       ∈ since w w' ↔ shell w ("docker ps | " +:+ ps) ≠ "") ∧
    (Run ("docker rm $(" +:+ (if sudo_flag then "sudo " else "")
            +:+ "docker ps -a | " +:+ ps +:+ ")") sudo_flag true false
       ∈ since w w' ↔ shell w ("docker ps | " +:+ ps) ≠ "").
Proof.
  exists (extend (halt_events sudo_flag w) w).
  split; [apply halt_docker_run|]. repeat (split; [done|]).
  rewrite since_extend. split; [apply halt_events_run|].
  unfold halt_events.
  destruct (manifest w) as [text|];
    destruct (bool_decide (shell w ("docker ps | " +:+ ps) ≠ "")) eqn:Hlist;
    [apply bool_decide_eq_true in Hlist | apply bool_decide_eq_false in Hlist
    |apply bool_decide_eq_true in Hlist | apply bool_decide_eq_false in Hlist];
    destruct sudo_flag;
    rewrite ?is_Some_alt; simpl;
    rewrite !elem_of_cons, ?elem_of_nil;
    (split; [|split; [|split]]);
    try (split; [try tauto; intros H; exfalso|try tauto; intros H]);
    try tauto;
    repeat (destruct H as [H|H]; try tauto; try (by vm_compute in H)).
Qed.

End Teardown.

(** ** More on the outcome of [deploy] *)

Module Outcome.
Import Py Os ArbDeploy Node Phases Trace PyFacts NodeFacts Run Discovery
  Lifecycle Traces.

Lemma halt_events_sudo sudo_flag w :
  Forall (uses_sudo sudo_flag) (halt_events sudo_flag w).
Proof.
  unfold halt_events.
  destruct (manifest w), (bool_decide _); repeat constructor.
Qed.

Lemma launch_events_sudo sudo_flag build_flag up_flag compose n l status :
  Forall (uses_sudo sudo_flag)
    (launch_events sudo_flag build_flag up_flag compose n l status).
Proof.
  unfold launch_events.
  destruct (negb up_flag || build_flag), (build_fails _ _ _),
    (negb build_flag || up_flag); repeat constructor.
Qed.

(** The loop reads the working directory, the folders and the
    configuration files, and nothing else of the world. *)
Lemma loaded_agree w1 w2 dir :
  entries w1 = entries w2 → files w1 = files w2 →
  loaded w1 dir = loaded w2 dir.
Proof.
  intros He Hf. unfold loaded, load_config. rewrite He, Hf.
  destruct (bool_decide (dir ∈ entries w2)); [|done].
  by destruct (files w2 !! path_join dir "config.json") as [[|doc]|].
Qed.

Lemma resolve_all_agree cli path w1 w2 n :
  entries w1 = entries w2 → files w1 = files w2 →
  resolve_all cli path w1 n = resolve_all cli path w2 n.
Proof.
  intros He Hf. unfold resolve_all. apply fold_result_ext.
  intros i l. unfold resolve. by rewrite (loaded_agree w1 w2).
Qed.

Lemma validators_found_agree template w1 w2 :
  entries w1 = entries w2 →
  validators_found template w1 = validators_found template w2.
Proof. intros He. unfold validators_found. by rewrite He. Qed.

Lemma deploy_log sudo_flag build_flag up_flag rollup cli w :
  ∃ rest,
    log (snd (deploy sudo_flag build_flag up_flag rollup cli w)) =
      log w ++ halt_events sudo_flag w ++ rest ∧
    since w (snd (deploy sudo_flag build_flag up_flag rollup cli w)) =
      halt_events sudo_flag w ++ rest.
Proof.
  rewrite deploy_trace.
  assert (Hnone : ∃ rest,
    log (extend (halt_events sudo_flag w) w) =
      log w ++ halt_events sudo_flag w ++ rest ∧
    since w (extend (halt_events sudo_flag w) w) =
      halt_events sudo_flag w ++ rest).
  { exists []. rewrite app_nil_r. split; [done|apply since_extend]. }
  destruct (validators_found _ _) as [n|e]; [|exact Hnone].
  destruct (attempt_all _ _ _ _) as [l|e]; [|exact Hnone].
  eexists. split; [|apply since_store]. simpl. reflexivity.
Qed.

Lemma deploy_sudo sudo_flag build_flag up_flag rollup cli w :
  Forall (uses_sudo sudo_flag)
    (since w (snd (deploy sudo_flag build_flag up_flag rollup cli w))).
Proof.
  rewrite deploy_trace.
  assert (Hnone : Forall (uses_sudo sudo_flag)
                    (since w (extend (halt_events sudo_flag w) w))).
  { rewrite since_extend. apply halt_events_sudo. }
  destruct (validators_found _ _) as [n|e]; [|exact Hnone].
  destruct (attempt_all _ _ _ _) as [l|e]; [|exact Hnone].
  simpl. rewrite since_store. apply Forall_app.
  split; [apply halt_events_sudo|apply launch_events_sudo].
Qed.

(** X2.  Every run of [deploy] begins with the teardown, also a run that
    fails: the events it adds to the log are those of [halt_docker]
    followed by the rest, and the log only grows. *)
Theorem teardown_comes_first (sudo_flag build_flag up_flag : bool)
    (rollup : string) (cli : option string) (w : world) :
  ∃ rest,
    log (snd (deploy sudo_flag build_flag up_flag rollup cli w)) =
      log w ++ halt_events sudo_flag w ++ rest ∧
    since w (snd (deploy sudo_flag build_flag up_flag rollup cli w)) =
      halt_events sudo_flag w ++ rest.
Proof.
  rewrite deploy_trace.
  destruct (validators_found _ _) as [n|e].
  - destruct (attempt_all _ _ _ _) as [l|e].
    + exists (launch_events sudo_flag build_flag up_flag (compose_path w)
                n l (build_status w)).
      split; [done|apply since_store].
    + exists []. rewrite app_nil_r. split; [done|apply since_extend].
  - exists []. rewrite app_nil_r. split; [done|apply since_extend].
Qed.

(** X3.  The privilege setting reaches every external command and the
    build: each command and build that a run of [deploy] starts is
    started with the [sudo] flag [deploy] was given. *)
Theorem sudo_reaches_every_command (sudo_flag build_flag up_flag : bool)
    (rollup : string) (cli : option string) (w : world) :
  Forall (uses_sudo sudo_flag)
    (since w (snd (deploy sudo_flag build_flag up_flag rollup cli w))).
Proof.
  rewrite deploy_trace.
  destruct (validators_found _ _) as [n|e]; simpl.
  - destruct (attempt_all _ _ _ _) as [l|e]; simpl.
    + rewrite since_store, Forall_app.
      split; [apply halt_events_sudo|apply launch_events_sudo].
    + rewrite since_extend. apply halt_events_sudo.
  - rewrite since_extend. apply halt_events_sudo.
Qed.

(** X4.  Phase selection, for a plain working directory and rollup name.
    When discovery counts [n] nodes, every node resolves and the build,
    if due, reports 0, [deploy] returns normally after the teardown, the
    writing of the manifest, the build unless [up_flag] is set without
    [build_flag], and the banner and start unless [build_flag] is set
    without [up_flag], in this order.  Whatever the two flags, at least
    one of the build and the start takes place; with [up_flag] alone the
    build's status is never asked for. *)
Theorem phase_selection (sudo_flag build_flag up_flag : bool)
    (rollup : string) (cli : option string) (w : world) (n : nat)
    (l : locals) :
  plain_dir (cwd w) = true →
  plain_name rollup = true →
  validators_found (states_path (cwd w) rollup) w = Ok n →
  resolve_all cli (state_folder (cwd w) rollup) w n = Ok l →
  (negb up_flag || build_flag = true → build_status w = 0%Z) →
  fst (deploy sudo_flag build_flag up_flag rollup cli w) = Ok tt ∧
  since w (snd (deploy sudo_flag build_flag up_flag rollup cli w)) =
    halt_events sudo_flag w ++
    [WriteFile (compose_path w) (contents l)] ++
    (if negb up_flag || build_flag then [BuildValidator sudo_flag] else []) ++
    (if negb build_flag || up_flag
     then [Print (banner n (rollup_address l));
           Run (up_command_line (compose_path w)) sudo_flag false false]
     else []) ∧
  (negb up_flag || build_flag = true ∨ negb build_flag || up_flag = true).
Proof.
  intros Hdir Hname Hfound Hloop Hbuild.
  rewrite (deploy_trace_plain _ _ _ _ _ _ n) by done. rewrite Hloop. simpl.
  assert (Hok : build_fails build_flag up_flag (build_status w) = false).
  { unfold build_fails. destruct (negb up_flag || build_flag); [|done].
    rewrite Hbuild by done. done. }
  unfold launch_result, launch_events. rewrite Hok.
  split; [done|]. split; [apply since_store|].
  destruct up_flag, build_flag; auto.
Qed.

Lemma phase_selection_witness :
  plain_dir (cwd (Samples.tree [0; 1] Samples.config_full 7)) = true ∧
  plain_name "mychain" = true ∧
  validators_found (states_path "/w" "mychain")
    (Samples.tree [0; 1] Samples.config_full 7) = Ok 2 ∧
  ∃ l,
    resolve_all None (state_folder "/w" "mychain")
      (Samples.tree [0; 1] Samples.config_full 7) 2 = Ok l ∧
    fst (deploy false false true "mychain" None
           (Samples.tree [0; 1] Samples.config_full 7)) = Ok tt ∧
    (BuildValidator false ∉
       since (Samples.tree [0; 1] Samples.config_full 7)
         (snd (deploy false false true "mychain" None
                 (Samples.tree [0; 1] Samples.config_full 7)))).
Proof.
  assert (Hdir : plain_dir (cwd (Samples.tree [0; 1] Samples.config_full 7)) = true)
    by (vm_compute; reflexivity).
  assert (Hname : plain_name "mychain" = true) by (vm_compute; reflexivity).
  assert (Hfound : validators_found (states_path "/w" "mychain")
                     (Samples.tree [0; 1] Samples.config_full 7) = Ok 2)
    by (vm_compute; reflexivity).
  split; [exact Hdir|]. split; [exact Hname|]. split; [exact Hfound|].
  destruct (resolve_all None (state_folder "/w" "mychain")
              (Samples.tree [0; 1] Samples.config_full 7) 2)
    as [l|e] eqn:Hloop; [|by vm_compute in Hloop].
  exists l. split; [reflexivity|].
  assert (Hstatus : negb true || false = true →
                    build_status (Samples.tree [0; 1] Samples.config_full 7) = 0%Z)
    by (intros Hdue; discriminate Hdue).
  destruct (phase_selection false false true "mychain" None
              (Samples.tree [0; 1] Samples.config_full 7) 2 l
              Hdir Hname Hfound Hloop Hstatus)
    as (Hok & Hevents & _).
  split; [exact Hok|]. rewrite Hevents.
  intros Hin. vm_compute in Hin.
  repeat (apply elem_of_cons in Hin as [Hin|Hin]; [discriminate Hin|]).
  by apply elem_of_nil in Hin.
Defined.

(** X5.  The manifest is regenerated in full, for a plain working
    directory and rollup name.  When discovery counts [n] nodes and every
    node resolves, the manifest file ends up holding the text the loop
    rendered, whatever the file held before, whatever the flags, whatever
    the external commands print and whatever the build reports (also when
    the build fails): nothing of the old file is merged in. *)
Theorem manifest_regenerated (sudo_flag build_flag up_flag : bool)
    (rollup : string) (cli : option string) (w : world) (n : nat)
    (l : locals) (old : option string) (sh : string → string) (status : Z)
    (lg : list event) :
  plain_dir (cwd w) = true →
  plain_name rollup = true →
  validators_found (states_path (cwd w) rollup) w = Ok n →
  resolve_all cli (state_folder (cwd w) rollup) w n = Ok l →
  manifest (snd (deploy sudo_flag build_flag up_flag rollup cli
                   (World (cwd w) (entries w) (files w) old sh status lg))) =
  Some (contents l).
Proof.
  intros Hdir Hname Hfound Hloop.
  rewrite (deploy_trace_plain _ _ _ _ _ _ n); [|done|done|].
  - simpl cwd.
    rewrite (resolve_all_agree cli _
               (World (cwd w) (entries w) (files w) old sh status lg) w)
      by done.
    by rewrite Hloop.
  - by rewrite (validators_found_agree _ _ w).
Qed.

Lemma manifest_regenerated_witness :
  plain_dir (cwd (Samples.tree [0] Samples.config_full 0)) = true ∧
  plain_name "mychain" = true ∧
  validators_found (states_path "/w" "mychain")
    (Samples.tree [0] Samples.config_full 0) = Ok 1 ∧
  ∃ l,
    resolve_all None (state_folder "/w" "mychain")
      (Samples.tree [0] Samples.config_full 0) 1 = Ok l ∧
    manifest (snd (deploy false true false "mychain" None
                     (World "/w"
                        (entries (Samples.tree [0] Samples.config_full 0))
                        (files (Samples.tree [0] Samples.config_full 0))
                        (Some "stale") (λ _, "c0ffee") 3 []))) =
    Some (contents l).
Proof.
  assert (Hdir : plain_dir (cwd (Samples.tree [0] Samples.config_full 0)) = true)
    by (vm_compute; reflexivity).
  assert (Hname : plain_name "mychain" = true) by (vm_compute; reflexivity).
  assert (Hfound : validators_found (states_path "/w" "mychain")
                     (Samples.tree [0] Samples.config_full 0) = Ok 1)
    by (vm_compute; reflexivity).
  split; [exact Hdir|]. split; [exact Hname|]. split; [exact Hfound|].
  destruct (resolve_all None (state_folder "/w" "mychain")
              (Samples.tree [0] Samples.config_full 0) 1)
    as [l|e] eqn:Hloop; [|by vm_compute in Hloop].
  exists l. split; [reflexivity|].
  exact (manifest_regenerated false true false "mychain" None
           (Samples.tree [0] Samples.config_full 0) 1 l
           (Some "stale") (λ _, "c0ffee") 3 [] Hdir Hname Hfound Hloop).
Defined.

(** X6.  Any error of the loop aborts the run, for a plain working
    directory and rollup name.  When discovery counts [n] nodes and
    resolving them raises [e], whichever error that is, [deploy] raises
    the same [e] right after the teardown: the manifest is left as it
    was, and nothing is written, built or started. *)
Theorem resolution_error_aborts (sudo_flag build_flag up_flag : bool)
    (rollup : string) (cli : option string) (w : world) (n : nat) (e : exn) :
  plain_dir (cwd w) = true →
  plain_name rollup = true →
  validators_found (states_path (cwd w) rollup) w = Ok n →
  resolve_all cli (state_folder (cwd w) rollup) w n = Raise e →
  fst (deploy sudo_flag build_flag up_flag rollup cli w) = Raise e ∧
  manifest (snd (deploy sudo_flag build_flag up_flag rollup cli w)) =
    manifest w ∧
  since w (snd (deploy sudo_flag build_flag up_flag rollup cli w)) =
    halt_events sudo_flag w ∧
  Forall is_run (halt_events sudo_flag w).
Proof.
  intros Hdir Hname Hfound Hloop.
  rewrite (deploy_trace_plain _ _ _ _ _ _ n) by done. rewrite Hloop. simpl.
  split; [done|]. split; [done|].
  split; [apply since_extend|apply halt_events_run].
Qed.

Lemma resolution_error_aborts_witness :
  plain_dir (cwd Cases.garbled_tree) = true ∧
  plain_name "mychain" = true ∧
  validators_found (states_path (cwd Cases.garbled_tree) "mychain")
    Cases.garbled_tree = Ok 1 ∧
  resolve_all (Some "pw") (state_folder (cwd Cases.garbled_tree) "mychain")
    Cases.garbled_tree 1 = Raise ValueError ∧
  fst (deploy false false false "mychain" (Some "pw") Cases.garbled_tree) =
    Raise ValueError ∧
  manifest (snd (deploy false false false "mychain" (Some "pw")
                   Cases.garbled_tree)) = Some "old".
Proof.
  assert (Hdir : plain_dir (cwd Cases.garbled_tree) = true)
    by (vm_compute; reflexivity).
  assert (Hname : plain_name "mychain" = true) by (vm_compute; reflexivity).
  assert (Hfound : validators_found (states_path (cwd Cases.garbled_tree) "mychain")
                     Cases.garbled_tree = Ok 1) by (vm_compute; reflexivity).
  assert (Hloop :
    resolve_all (Some "pw") (state_folder (cwd Cases.garbled_tree) "mychain")
      Cases.garbled_tree 1 = Raise ValueError) by (vm_compute; reflexivity).
  split; [exact Hdir|]. split; [exact Hname|]. split; [exact Hfound|].
  split; [exact Hloop|].
  destruct (resolution_error_aborts false false false "mychain" (Some "pw")
              Cases.garbled_tree 1 ValueError Hdir Hname Hfound Hloop)
    as (Hr & Hm & _).
  split; [exact Hr|exact Hm].
Defined.

(** X7.  [main] runs the network-creation script first on every
    invocation, also one it will reject, and runs it without [sudo] even
    when [--sudo] is given; everything it starts afterwards is started
    with the [--sudo] setting of the command line. *)
Theorem network_creation_first (c : command_line) (w : world) :
  ∃ rest,
    since w (snd (main c w)) =
      Run "./scripts/create-network" false false false :: rest ∧
    Forall (uses_sudo (given_sudo c)) rest.
Proof.
  unfold main, mbind at 1, M_bind at 1, run at 1.
  set (w1 := emit (Run "./scripts/create-network" false false false) w).
  assert (Hrejected :
    ∃ rest, since w (snd (@exit unit 2 w1)) =
              Run "./scripts/create-network" false false false :: rest ∧
            Forall (uses_sudo (given_sudo c)) rest).
  { exists []. split; [|done]. apply (since_extend [_] w). }
  unfold mbind, M_bind, parse_args.
  destruct (given_build c && given_up c); [exact Hrejected|].
  destruct (given_positional c) as [|rollup [|? ?]];
    [exact Hrejected| |exact Hrejected].
  unfold mret, M_ret. simpl args_sudo. simpl args_build. simpl args_up.
  simpl args_rollup. simpl args_password.
  destruct (deploy_log (given_sudo c) (given_build c) (given_up c)
              rollup (given_password c) w1) as (rest & Hlog & Hsince).
  exists (halt_events (given_sudo c) w1 ++ rest). split.
  - apply since_log. rewrite Hlog. unfold w1. simpl. by rewrite <- app_assoc.
  - rewrite <- Hsince. apply deploy_sudo.
Qed.

End Outcome.

(** ** More on the endpoint rewrite *)

Module Endpoint.
Import Py Node PyFacts.

(** The rewritten endpoint holds no [localhost]. *)
Lemma rewrite_clean s :
  contains "localhost" (replace s LOCALHOST GETH) = false.
Proof.
  change (contains LOCALHOST (replace_go LOCALHOST GETH 0 s) = false).
  apply replace_go_clean; [done|apply geth_clashes|apply geth_clean].
Qed.

(** An endpoint without [localhost] is left as it is. *)
Lemma rewrite_none s :
  contains "localhost" s = false → replace s LOCALHOST GETH = s.
Proof.
  change (contains LOCALHOST s = false → replace_go LOCALHOST GETH 0 s = s).
  apply replace_go_none.
Qed.

End Endpoint.

(** ** More on the turns of the loop *)

Module Turns.
Import Py Os ArbDeploy Node Phases Trace PyFacts NodeFacts Render Run
  Discovery Lifecycle Traces.

Local Opaque compose_header compose_validator percent replace.

(** A turn that succeeds loaded the node's configuration, resolved it and
    committed the result. *)
Lemma resolve_inv cli path w i l0 l1 :
  resolve cli path w i l0 = Ok l1 →
  ∃ doc r,
    loaded w (path i) = Ok doc ∧ node cli (path i) i doc = Ok r ∧
    l1 = commit i doc l0 r.
Proof.
  unfold resolve. destruct (loaded w (path i)) as [doc|] eqn:Hdoc; [|done].
  cbn [mbind result_bind]. rewrite body_node.
  destruct (node cli (path i) i doc) as [r|] eqn:Hnode; [|done].
  cbn [fmap result_fmap]. intros [= <-]. by exists doc, r.
Qed.

Lemma node_inv cli sp i doc r :
  node cli sp i doc = Ok r →
  subscript doc "rollup_address" = Ok (r_address r) ∧
  ∃ u, subscript doc "eth_url" = Ok (PyStr u) ∧
       r_url r = replace u LOCALHOST GETH.
Proof.
  unfold node.
  destruct (subscript doc "rollup_address") as [a|]; [|done].
  cbn [mbind result_bind].
  destruct (subscript doc "eth_url") as [[| | |u|]|]; try done.
  cbn [mbind result_bind method_replace].
  destruct (password_flag cli doc) as [f|]; [|done].
  cbn [mbind result_bind].
  destruct (if decide (i = 0) then _ else _) as [block|]; [|done].
  cbn [mbind result_bind]. intros [= <-]. split; [done|]. by exists u.
Qed.

(** From index 1 on, every turn appends its block. *)
Lemma fold_blocks cli path w m : ∀ k l0 l,
  1 ≤ k →
  fold_result (resolve cli path w) (seq k m) l0 = Ok l →
  ∃ rs : list resolved,
    length rs = m ∧
    (∀ j r, rs !! j = Some r →
       ∃ doc, loaded w (path (k + j)) = Ok doc ∧
              node cli (path (k + j)) (k + j) doc = Ok r) ∧
    contents l = contents l0 +:+ paste (r_block <$> rs).
Proof.
  induction m as [|m IH]; intros k l0 l Hk; simpl.
  { intros [= <-]. exists []. split; [done|]. split; [done|].
    simpl. by rewrite app_empty_r. }
  destruct (resolve cli path w k l0) as [l1|] eqn:Hturn; [|done].
  cbn [mbind result_bind]. intros Hrest.
  apply resolve_inv in Hturn as (doc & r & Hdoc & Hnode & ->).
  destruct (IH (S k) _ l (le_S _ _ Hk) Hrest) as (rs & Hlen & Hrs & Htext).
  exists (r :: rs). split; [by rewrite <- Hlen|]. split.
  - intros [|j] r' Hj.
    + injection Hj as <-. rewrite Nat.add_0_r. by exists doc.
    + replace (k + S j) with (S k + j) by lia. by apply Hrs.
  - rewrite Htext. unfold commit. simpl.
    destruct (decide (k = 0)) as [->|_]; [lia|].
    by rewrite app_assoc_string.
Qed.

(** X8.  The manifest is one block per node, in index order.  When the
    loop over [n] nodes succeeds, the text it leaves for the manifest is
    the block of node 0 followed by the blocks of nodes 1 to [n - 1], each
    block being the one its own node resolves to; nothing else is in
    it. *)
Theorem manifest_is_one_block_per_node (cli : option string)
    (path : nat → string) (w : world) (n : nat) (l : locals) :
  resolve_all cli path w n = Ok l →
  ∃ rs : list resolved,
    length rs = n ∧
    (∀ i r, rs !! i = Some r →
       ∃ doc, loaded w (path i) = Ok doc ∧ node cli (path i) i doc = Ok r) ∧
    contents l = paste (r_block <$> rs).
Proof.
  unfold resolve_all. destruct n as [|m]; simpl.
  { intros [= <-]. by exists []. }
  destruct (resolve cli path w 0 unbound) as [l1|] eqn:Hturn; [|done].
  cbn [mbind result_bind]. intros Hrest.
  apply resolve_inv in Hturn as (doc & r & Hdoc & Hnode & ->).
  destruct (fold_blocks cli path w m 1 _ l (le_n 1) Hrest)
    as (rs & Hlen & Hrs & Htext).
  exists (r :: rs). split; [by rewrite <- Hlen|]. split.
  - intros [|j] r' Hj.
    + injection Hj as <-. by exists doc.
    + by apply (Hrs j).
  - by rewrite Htext.
Qed.

Lemma manifest_is_one_block_per_node_witness :
  ∃ l,
    resolve_all None Samples.path
      (Samples.tree [0; 1; 2] Samples.config_full 0) 3 = Ok l ∧
    ∃ r0 r1 r2,
      contents l = r_block r0 +:+ r_block r1 +:+ r_block r2 +:+ "" ∧
      node None (Samples.path 1) 1 (JObject Samples.config_full) = Ok r1.
Proof.
  destruct (resolve_all None Samples.path
              (Samples.tree [0; 1; 2] Samples.config_full 0) 3)
    as [l|e] eqn:Hloop; [|by vm_compute in Hloop].
  exists l. split; [done|].
  destruct (manifest_is_one_block_per_node None Samples.path
              (Samples.tree [0; 1; 2] Samples.config_full 0) 3 l Hloop)
    as (rs & Hlen & Hrs & Htext).
  destruct rs as [|r0 [|r1 [|r2 [|? ?]]]]; try done.
  exists r0, r1, r2. split; [exact Htext|].
  destruct (Hrs 1 r1) as (doc & Hdoc & Hnode); [done|].
  assert (Hfile : loaded (Samples.tree [0; 1; 2] Samples.config_full 0)
                    (Samples.path 1) = Ok (JObject Samples.config_full))
    by (vm_compute; reflexivity).
  rewrite Hfile in Hdoc. injection Hdoc as <-. exact Hnode.
Defined.

(** X9.  The banner names the last node's rollup address.  The locals are
    overwritten turn after turn, so after a loop over [n >= 1] nodes the
    configuration and the rollup address that [deploy] still holds, and
    prints before it brings the deployment up, are those of node [n - 1],
    not those of the aggregator. *)
Theorem banner_names_last_node (cli : option string) (path : nat → string)
    (w : world) (n : nat) (l : locals) :
  resolve_all cli path w n = Ok l →
  0 < n →
  loaded w (path (n - 1)) = Ok (data l) ∧
  subscript (data l) "rollup_address" = Ok (rollup_address l).
Proof.
  unfold resolve_all. intros Hloop Hn.
  destruct n as [|m]; [lia|]. replace (S m - 1) with m by lia.
  rewrite seq_S, fold_result_app in Hloop. simpl in Hloop.
  destruct (fold_result (resolve cli path w) (seq 0 m) unbound) as [l0|];
    [|done].
  cbn [mbind result_bind] in Hloop.
  destruct (resolve cli path w m l0) as [l1|] eqn:Hturn; [|done].
  cbn [mbind result_bind] in Hloop. injection Hloop as <-.
  apply resolve_inv in Hturn as (doc & r & Hdoc & Hnode & ->).
  apply node_inv in Hnode as [Haddress _]. by split.
Qed.

Lemma banner_names_last_node_witness :
  ∃ l,
    resolve_all None Samples.path Cases.mixed_tree 2 = Ok l ∧
    rollup_address l = PyStr "0xdef".
Proof.
  destruct (resolve_all None Samples.path Cases.mixed_tree 2)
    as [l|e] eqn:Hloop; [|by vm_compute in Hloop].
  exists l. split; [done|].
  destruct (banner_names_last_node None Samples.path Cases.mixed_tree 2 l Hloop)
    as [Hdoc Haddress]; [lia|].
  assert (Hfile : loaded Cases.mixed_tree (Samples.path (2 - 1)) =
      Ok (JObject (<["rollup_address" := PyStr "0xdef"]> Samples.config_full)))
    by (vm_compute; reflexivity).
  rewrite Hfile in Hdoc. injection Hdoc as Hdata.
  rewrite <- Hdata in Haddress.
  assert (Hfield :
    subscript (JObject (<["rollup_address" := PyStr "0xdef"]> Samples.config_full))
      "rollup_address" = Ok (PyStr "0xdef")) by (vm_compute; reflexivity).
  rewrite Hfield in Haddress. by injection Haddress as <-.
Defined.

(** X10.  The endpoint after the rewrite.  A turn that succeeds read a
    string [eth_url]; the endpoint it renders has no [localhost] left in
    it, wherever in the URL the word stood, and an [eth_url] without
    [localhost] is rendered as it is. *)
Theorem endpoint_has_no_localhost (cli : option string) (path : nat → string)
    (i : nat) (doc : json) (l l' : locals) :
  body cli path i doc l = Ok l' →
  ∃ u,
    subscript doc "eth_url" = Ok (PyStr u) ∧
    eth_url l' = replace u "localhost" "arb-bridge-eth-geth" ∧
    contains "localhost" (eth_url l') = false ∧
    (contains "localhost" u = false → eth_url l' = u).
Proof.
  rewrite body_node.
  destruct (node cli (path i) i doc) as [r|] eqn:Hnode; [|done].
  intros [= <-]. apply node_inv in Hnode as (_ & u & Hu & Hurl).
  exists u. split; [done|]. simpl. rewrite Hurl. split; [done|]. split.
  - apply Endpoint.rewrite_clean.
  - apply Endpoint.rewrite_none.
Qed.

Lemma endpoint_has_no_localhost_witness :
  ∃ l',
    body None Samples.path 0 (JObject Samples.config_full) unbound = Ok l' ∧
    eth_url l' = "ws://arb-bridge-eth-geth:1234" ∧
    contains "localhost" (eth_url l') = false.
Proof.
  destruct (body None Samples.path 0 (JObject Samples.config_full) unbound)
    as [l'|e] eqn:Hbody; [|by vm_compute in Hbody].
  destruct (endpoint_has_no_localhost None Samples.path 0
              (JObject Samples.config_full) unbound l' Hbody)
    as (u & Hu & Hurl & Hclean & _).
  exists l'. split; [done|]. split; [|exact Hclean].
  vm_compute in Hu. injection Hu as <-. rewrite Hurl. vm_compute. reflexivity.
Defined.

(** X11.  What a turn can raise, and when.  A turn on a loaded document
    raises nothing but these, checked in this order: [TypeError] when the
    document is not a dictionary; [KeyError] for a missing
    [rollup_address]; [KeyError] for a missing [eth_url]; [AttributeError]
    for an [eth_url] that is not a string; and, only without a
    command-line password, [TypeError] for a [password] that is not a
    string or the script's own error for a missing one.  The [blocktime]
    field and the rendering never make a turn fail. *)
Theorem turn_errors (cli : option string) (path : nat → string) (i : nat)
    (doc : json) (l : locals) (e : exn) :
  body cli path i doc l = Raise e →
  (doc = JOther ∧ e = TypeError) ∨
  ∃ m, doc = JObject m ∧
    ((m !! "rollup_address" = None ∧ e = KeyError "rollup_address") ∨
     (is_Some (m !! "rollup_address") ∧
      ((m !! "eth_url" = None ∧ e = KeyError "eth_url") ∨
       (∃ v, m !! "eth_url" = Some v ∧ (∀ u, v ≠ PyStr u) ∧
             e = AttributeError) ∨
       (∃ u, m !! "eth_url" = Some (PyStr u) ∧ truthy cli = false ∧
             ((∃ p, m !! "password" = Some p ∧ (∀ y, p ≠ PyStr y) ∧
                    e = TypeError) ∨
              (m !! "password" = None ∧ e = Exception PASSWORD_REQUIRED)))))).
Proof.
  rewrite body_node. destruct doc as [m|].
  2:{ intros [= <-]. by left. }
  intros Hraise. right. exists m. split; [done|].
  unfold node in Hraise. simpl in Hraise.
  destruct (m !! "rollup_address") as [a|] eqn:Ha; simpl in Hraise.
  2:{ injection Hraise as <-. by left. }
  right. split; [done|].
  destruct (m !! "eth_url") as [v|] eqn:Hu; simpl in Hraise.
  2:{ injection Hraise as <-. by left. }
  assert (Hcase : (∃ u, v = PyStr u) ∨ (∀ u, v ≠ PyStr u)).
  { destruct v; eauto; right; by intros u'. }
  destruct Hcase as [[u ->]|Hv].
  2:{ right; left. exists v. split; [done|]. split; [done|].
      destruct v; simpl in Hraise; try (by injection Hraise as <-).
      exfalso. by eapply Hv. }
  right; right. exists u. split; [done|].
  simpl in Hraise. unfold password_flag, has_key in Hraise.
  destruct (truthy cli) eqn:Hcli; simpl in Hraise.
  { destruct (Flags.render_ok i (path i)
                ((" -password=" +:+ default "" cli) +:+ blocktime_flag i (JObject m))
                (replace u LOCALHOST GETH) a) as [block Hblock].
    rewrite Hblock in Hraise. done. }
  split; [done|].
  destruct (m !! "password") as [p|] eqn:Hp; simpl in Hraise.
  - left. exists p. split; [done|].
    rewrite ?bool_decide_eq_true_2 in Hraise by eauto. simpl in Hraise.
    destruct p as [| | |y|]; simpl in Hraise;
      try (split; [done|by injection Hraise as <-]).
    destruct (Flags.render_ok i (path i)
                ((" -password=" +:+ y) +:+ blocktime_flag i (JObject m))
                (replace u LOCALHOST GETH) a) as [block Hblock].
    rewrite Hblock in Hraise. done.
  - right. split; [done|].
    rewrite ?bool_decide_eq_false_2 in Hraise by (by intros [? ?]).
    simpl in Hraise. by injection Hraise as <-.
Qed.

Lemma turn_errors_witness :
  body None Samples.path 1 (JObject Samples.config_bare) unbound =
    Raise (KeyError "rollup_address") ∧
  Samples.config_bare !! "rollup_address" = None.
Proof.
  assert (Hbody : body None Samples.path 1 (JObject Samples.config_bare) unbound =
                  Raise (KeyError "rollup_address")) by (vm_compute; reflexivity).
  split; [exact Hbody|].
  destruct (turn_errors None Samples.path 1 (JObject Samples.config_bare)
              unbound _ Hbody) as [[Hdoc _]|(m & Hdoc & Hcases)]; [done|].
  injection Hdoc as <-.
  destruct Hcases as [[Hnone _]|[[a Ha] _]]; [exact Hnone|].
  by vm_compute in Ha.
Defined.

(** X12.  An empty command-line password counts as none.  Given
    [--password ""], every turn, and so the whole of [deploy], behaves as
    without the option: the configuration's password is used, and a node
    without one makes the run fail. *)
Theorem empty_password_is_no_password (sudo_flag build_flag up_flag : bool)
    (rollup : string) (path : nat → string) (i : nat) (doc : json)
    (l : locals) (w : world) :
  body (Some "") path i doc l = body None path i doc l ∧
  deploy sudo_flag build_flag up_flag rollup (Some "") w =
  deploy sudo_flag build_flag up_flag rollup None w.
Proof.
  assert (Hbody : ∀ path i doc l,
            body (Some "") path i doc l = body None path i doc l).
  { intros. rewrite !body_node. unfold node, password_flag. done. }
  split; [apply Hbody|].
  rewrite !deploy_run.
  destruct (validators_found (states_path (cwd w) rollup) w) as [n|e]; [|done].
  unfold attempt_all.
  rewrite (fold_result_ext (attempt (Some "") (states_path (cwd w) rollup) w)
             (attempt None (states_path (cwd w) rollup) w)); [done|].
  intros j s. unfold attempt.
  destruct (Py.percent (states_path (cwd w) rollup) [PyInt (Z.of_nat j)])
    as [folder|]; [|done].
  cbn [mbind result_bind].
  destruct (loaded w folder); [apply Hbody|done].
Qed.

End Turns.

(** ** More on discovery *)

Module Counting.
Import Py Os ArbDeploy Node Phases Trace PyFacts NodeFacts Run Paths Discovery.

(** X13.  A dense set of folders is counted exactly, for a plain working
    directory and rollup name.  When the state folders that exist are
    those of the indices below [k], discovery returns [k]; when there is
    none at all it still returns 1. *)
Theorem dense_folders_are_counted (dir rollup : string) (w : world) (k : nat) :
  plain_dir dir = true →
  plain_name rollup = true →
  (∀ j, state_folder dir rollup j ∈ entries w ↔ j < k) →
  validators_found (states_path dir rollup) w = Ok (Nat.max 1 k).
Proof.
  intros Hdir Hname Hdense.
  rewrite validators_found_plain by done. f_equal.
  pose proof (first_gap_stops (state_folder dir rollup) (entries w)
                (state_folder_inj dir rollup Hdir Hname)) as Hgap.
  pose proof (first_gap_range
                (λ x, bool_decide (state_folder dir rollup x ∈ entries w))
                (S (size (entries w))) 1) as [Hone _].
  pose proof (first_gap_present
                (λ x, bool_decide (state_folder dir rollup x ∈ entries w))
                (S (size (entries w))) 1) as Hpresent.
  remember (first_gap (λ x, bool_decide (state_folder dir rollup x ∈ entries w))
              (S (size (entries w))) 1) as found eqn:Hfound.
  rewrite Hdense in Hgap.
  destruct (decide (found = 1)) as [Hn|Hn]; [lia|].
  assert (Hprev : state_folder dir rollup (found - 1) ∈ entries w).
  { apply (bool_decide_eq_true (_ ∈ _)), Hpresent. lia. }
  apply Hdense in Hprev. lia.
Qed.

Lemma dense_folders_are_counted_witness :
  plain_dir "/w" = true ∧
  plain_name "mychain" = true ∧
  (∀ j, state_folder "/w" "mychain" j ∈
          entries (Samples.tree [0; 1; 2] Samples.config_full 0) ↔ j < 3) ∧
  validators_found (states_path "/w" "mychain")
    (Samples.tree [0; 1; 2] Samples.config_full 0) = Ok 3.
Proof.
  assert (Hdir : plain_dir "/w" = true) by (vm_compute; reflexivity).
  assert (Hname : plain_name "mychain" = true) by (vm_compute; reflexivity).
  assert (Hdense : ∀ j, state_folder "/w" "mychain" j ∈
            entries (Samples.tree [0; 1; 2] Samples.config_full 0) ↔ j < 3).
  { intros j.
    change (state_folder "/w" "mychain" j ∈
              (list_to_set (state_folder "/w" "mychain" <$> [0; 1; 2])
                 : gset string) ↔ j < 3).
    rewrite elem_of_list_to_set, list_elem_of_fmap. split.
    - intros (y & Heq & Hy).
      apply (state_folder_inj "/w" "mychain" Hdir Hname) in Heq as ->.
      repeat (apply elem_of_cons in Hy as [->|Hy]; [lia|]).
      by apply elem_of_nil in Hy.
    - intros Hj. exists j. split; [done|].
      destruct j as [|[|[|j]]]; [repeat constructor..|lia]. }
  split; [exact Hdir|]. split; [exact Hname|]. split; [exact Hdense|].
  exact (dense_folders_are_counted "/w" "mychain" _ 3 Hdir Hname Hdense).
Defined.

End Counting.
